(** * libgeosuitepvt: the PVT text-file parser, embedded and verified

    A shallow embedding of [libgeosuitepvt/parser.py] (class [PVTParser]) and
    of the data classes of [libgeosuitepvt/models.py].

    Conventions of the embedding.
    - A Python [str] is a Rocq [string]; the character [c] stands for the
      code point [N_of_ascii c], so the development covers text whose code
      points are below 256.  The character predicates ([isspace],
      [isalnum], [lower], the line boundaries of [splitlines]) are Python's
      on that range.
    - A Python [float] is a [spec_float] (binary64: [prec = 53],
      [emax = 1024]); [float(str)] is [py_float], the correctly rounded
      value of the decimal literal.
    - [Optional[T]] is [option T]; a call that can raise returns an
      [outcome]; [try ... except] is [try_except].
    - [datetime.strptime], [datetime.fromisoformat] and [pathlib.Path] are
      the members of the class [PyRuntime]: the parser is verified for every
      runtime in which the two [datetime] parsers raise nothing but
      [ValueError] on a [str] argument.
    - Objects with an identity (the lists and the dictionary that the
      parser fills, the data-class instances, the parser itself) live in
      the store of a [Machine]; [Stateful] holds the methods as state
      transformers on machines, and [PVTParser] the same methods as
      functions of the text, which is what a caller can observe of them.
    - The text path of the parser hands [_coerce_float] and the datetime
      helpers a [str] or [None] only; their arguments are typed
      [option string] and the branches on other dynamic types are left out. *)

From Stdlib Require Import ZArith Ascii String Sorted.
From Stdlib Require Import Floats.SpecFloat.
From stdpp Require Import gmap strings list.

Local Open Scope Z_scope.

(** ** Exceptions and outcomes *)

Inductive exception : Set :=
  | ValueError
  | TypeError
  | OverflowError
  | OSError.

Global Instance exception_eq_dec : EqDecision exception.
Proof. solve_decision. Defined.

Inductive outcome (A : Type) : Type :=
  | Returns (a : A)
  | Raises (e : exception).

Arguments Returns {A} a.
Arguments Raises {A} e.

Definition obind {A B : Type} (c : outcome A) (k : A -> outcome B) : outcome B :=
  match c with
  | Returns a => k a
  | Raises e => Raises e
  end.

Notation "x <- c ;; k" := (obind c (fun x => k))
  (at level 100, c at next level, right associativity).

(** [try: x = body / except (catches): handler], then the rest [k x] of the
    function; the handler leaves the function ([return]) or carries on with
    a computation of its own ([continue] in a loop). *)
Definition try_except {A B : Type} (body : outcome A)
    (catches : list exception) (handler : outcome B) (k : A -> outcome B)
    : outcome B :=
  match body with
  | Returns a => k a
  | Raises e => if bool_decide (e ∈ catches) then handler else Raises e
  end.

(** [for x in xs: state = body(x, state)]; an exception leaves the loop. *)
Fixpoint for_each {A S : Type} (xs : list A) (body : A -> S -> outcome S)
    (s : S) : outcome S :=
  match xs with
  | [] => Returns s
  | x :: xs' => s' <- body x s ;; for_each xs' body s'
  end.

(** ** Python [str] primitives *)

Module Str.

Definition code (c : ascii) : N := N_of_ascii c.

Definition in_range (lo hi : N) (c : ascii) : bool :=
  ((lo <=? code c) && (code c <=? hi))%N.

(** [str.isspace] of one character. *)
Definition isspace (c : ascii) : bool :=
  in_range 9 13 c || in_range 28 32 c || in_range 133 133 c
  || in_range 160 160 c.

(** [str.isalnum] of one character. *)
Definition isalnum (c : ascii) : bool :=
  in_range 48 57 c || in_range 65 90 c || in_range 97 122 c
  || in_range 170 170 c || in_range 178 179 c || in_range 181 181 c
  || in_range 185 186 c || in_range 188 190 c || in_range 192 214 c
  || in_range 216 246 c || in_range 248 255 c.

(** [str.lower] of one character.  On code points below 256 Python lowers
    every character by itself, as here; beyond that range it does not (a
    capital sigma is lowered by its place in the word), and text with such
    characters is outside the development. *)
Definition lower_char (c : ascii) : ascii :=
  if in_range 65 90 c || in_range 192 214 c || in_range 216 222 c
  then ascii_of_N (code c + 32)
  else c.

(** A line boundary of [str.splitlines]. *)
Definition is_linebreak (c : ascii) : bool :=
  in_range 10 13 c || in_range 28 30 c || in_range 133 133 c.

Definition isdigit (c : ascii) : bool := in_range 48 57 c.

Definition digit_val (c : ascii) : Z := Z.of_N (code c) - 48.

Definition eqc (a b : ascii) : bool := Ascii.eqb a b.

(** [s.lower()], for a string of code points below 256. *)
Fixpoint lower (s : string) : string :=
  match s with
  | EmptyString => EmptyString
  | String c s' => String (lower_char c) (lower s')
  end.

Fixpoint filter (p : ascii -> bool) (s : string) : string :=
  match s with
  | EmptyString => EmptyString
  | String c s' => if p c then String c (filter p s') else filter p s'
  end.

(** [lstrip_by p s] removes the longest prefix of characters satisfying [p]. *)
Fixpoint lstrip_by (p : ascii -> bool) (s : string) : string :=
  match s with
  | EmptyString => EmptyString
  | String c s' => if p c then lstrip_by p s' else s
  end.

Definition lstrip (s : string) : string := lstrip_by isspace s.

(** [rstrip_by p s] removes the longest suffix of characters satisfying [p]. *)
Fixpoint rstrip_by (p : ascii -> bool) (s : string) : string :=
  match s with
  | EmptyString => EmptyString
  | String c s' =>
      match rstrip_by p s' with
      | EmptyString => if p c then EmptyString else String c EmptyString
      | r => String c r
      end
  end.

Definition rstrip (s : string) : string := rstrip_by isspace s.

(** [s.strip()] *)
Definition strip (s : string) : string := rstrip (lstrip s).

(** [s.rstrip(chars)] for a one-character [chars]. *)
Definition rstrip_char (ch : ascii) (s : string) : string :=
  rstrip_by (eqc ch) s.

(** [ch in s] *)
Fixpoint contains (ch : ascii) (s : string) : bool :=
  match s with
  | EmptyString => false
  | String c s' => eqc c ch || contains ch s'
  end.

(** [s.rfind(ch)]: the highest index of [ch], or [-1]. *)
Fixpoint rfind (ch : ascii) (s : string) : Z :=
  match s with
  | EmptyString => -1
  | String c s' =>
      let r := rfind ch s' in
      if 0 <=? r then r + 1 else if eqc c ch then 0 else -1
  end.

(** [s.replace(old, new)] for a one-character [old]. *)
Fixpoint replace (old : ascii) (new : string) (s : string) : string :=
  match s with
  | EmptyString => EmptyString
  | String c s' =>
      if eqc c old then new +:+ replace old new s'
      else String c (replace old new s')
  end.

(** [s.startswith(p)] *)
Fixpoint startswith (p s : string) : bool :=
  match p, s with
  | EmptyString, _ => true
  | String a p', String b s' => eqc a b && startswith p' s'
  | String _ _, EmptyString => false
  end.

(** [s.split(sep)] for a one-character [sep]: never the empty list. *)
Fixpoint split (sep : ascii) (s : string) : list string :=
  match s with
  | EmptyString => [EmptyString]
  | String c s' =>
      if eqc c sep then EmptyString :: split sep s'
      else
        match split sep s' with
        | field :: fields => String c field :: fields
        | [] => [String c EmptyString]
        end
  end.

(** [s.split(sep, 1)] when [sep in s]: the text before the first [sep] and
    the text after it; [None] when [sep] does not occur (Python then returns
    a one-element list). *)
Fixpoint split_once (sep : ascii) (s : string) : option (string * string) :=
  match s with
  | EmptyString => None
  | String c s' =>
      if eqc c sep then Some (EmptyString, s')
      else
        match split_once sep s' with
        | Some (k, v) => Some (String c k, v)
        | None => None
        end
  end.

(** [s.splitlines()]: [after_cr] records that the previous character was a
    carriage return, whose following line feed belongs to the same
    boundary. *)
Fixpoint splitlines_from (after_cr : bool) (s : string) : list string :=
  match s with
  | EmptyString => []
  | String c s' =>
      if after_cr && eqc c "010" then splitlines_from false s'
      else if is_linebreak c then
        EmptyString :: splitlines_from (eqc c "013") s'
      else
        match splitlines_from false s' with
        | line :: lines =>
            (* a boundary right after [c] opens with an empty line *)
            String c line :: lines
        | [] => [String c EmptyString]
        end
  end.

Definition splitlines (s : string) : list string := splitlines_from false s.

(** [s[n:]] *)
Fixpoint skip (n : nat) (s : string) : string :=
  match n, s with
  | O, _ => s
  | S n', String _ s' => skip n' s'
  | S _, EmptyString => EmptyString
  end.

Definition is_empty (s : string) : bool :=
  match s with
  | EmptyString => true
  | String _ _ => false
  end.

(** [s.count(ch)] *)
Fixpoint count (ch : ascii) (s : string) : nat :=
  match s with
  | EmptyString => O
  | String c s' => ((if eqc c ch then 1 else 0) + count ch s')%nat
  end.

(** Every [old] turned into the character [new]. *)
Fixpoint subst_char (old new : ascii) (s : string) : string :=
  match s with
  | EmptyString => EmptyString
  | String c s' => String (if eqc c old then new else c) (subst_char old new s')
  end.

(** [sep.join(parts)] for a one-character [sep]. *)
Fixpoint join (sep : ascii) (parts : list string) : string :=
  match parts with
  | [] => EmptyString
  | [part] => part
  | part :: rest => part +:+ String sep (join sep rest)
  end.

(** Truth value of a [str]: non-empty. *)
Definition truthy (s : string) : bool :=
  match s with
  | EmptyString => false
  | String _ _ => true
  end.

End Str.

(** ** Python [float]

    [float(s)] for a [str] follows CPython: the text goes through
    [_PyUnicode_TransformDecimalAndSpaceToASCII], then
    [_Py_string_to_number_with_underscores], then
    [float_from_string_inner], which strips C white space and hands the rest
    to [PyOS_string_to_double]; the value of a decimal literal is the
    binary64 number nearest to it (ties to even), an infinity beyond the
    range.  (CPython rejects literals of more than 10^9 digits and caps the
    written exponent at 1.1 * 10^9 in absolute value; both are out of reach
    of a text shorter than 10^9 characters.) *)

Module PyFloat.
Import Str.

Definition float : Set := spec_float.

Definition prec : Z := 53.
Definition emax : Z := 1024.

(** [math.isfinite] *)
Definition isfinite (x : float) : bool :=
  match x with
  | S754_zero _ | S754_finite _ _ _ => true
  | S754_infinity _ | S754_nan => false
  end.

Fixpoint is_ascii (s : string) : bool :=
  match s with
  | EmptyString => true
  | String c s' => (code c <? 128)%N && is_ascii s'
  end.

(** The loop of [_PyUnicode_TransformDecimalAndSpaceToASCII]: a character
    below 127 is kept, white space becomes a blank, and the first other
    character (none of 127..255 is a decimal digit) becomes ['?'] and ends
    the copy. *)
Fixpoint transform_chars (s : string) : string :=
  match s with
  | EmptyString => EmptyString
  | String c s' =>
      if (code c <? 127)%N then String c (transform_chars s')
      else if isspace c then String " " (transform_chars s')
      else String "?" EmptyString
  end.

Definition transform (s : string) : string :=
  if is_ascii s then s else transform_chars s.

(** The copy loop of [_Py_string_to_number_with_underscores]: an underscore
    is dropped when it stands between two digits and is an error elsewhere.
    [prev] is the previous character, NUL at the start. *)
Fixpoint remove_underscores (prev : ascii) (s : string) : option string :=
  match s with
  | EmptyString => if eqc prev "_" then None else Some EmptyString
  | String c s' =>
      if eqc c "_" then
        if isdigit prev then remove_underscores c s' else None
      else if eqc prev "_" && negb (isdigit c) then None
      else String c <$> remove_underscores c s'
  end.

Definition strip_underscores (s : string) : option string :=
  if contains "_" s then remove_underscores "000" s else Some s.

(** [Py_ISSPACE] *)
Definition c_isspace (c : ascii) : bool :=
  in_range 9 13 c || in_range 32 32 c.

(** [Py_TOLOWER] *)
Definition c_tolower (c : ascii) : ascii :=
  if in_range 65 90 c then ascii_of_N (code c + 32) else c.

Fixpoint c_lower (s : string) : string :=
  match s with
  | EmptyString => EmptyString
  | String c s' => String (c_tolower c) (c_lower s')
  end.

Definition take_sign (s : string) : bool * string :=
  match s with
  | String c r =>
      if eqc c "-" then (true, r) else if eqc c "+" then (false, r)
      else (false, s)
  | EmptyString => (false, s)
  end.

(** The longest prefix of decimal digits, and the rest. *)
Fixpoint span_digits (s : string) : string * string :=
  match s with
  | String c r =>
      if isdigit c then
        let '(ds, rest) := span_digits r in (String c ds, rest)
      else (EmptyString, s)
  | EmptyString => (EmptyString, EmptyString)
  end.

Fixpoint digits_value_from (acc : Z) (ds : string) : Z :=
  match ds with
  | EmptyString => acc
  | String c r => digits_value_from (10 * acc + digit_val c) r
  end.

Definition digits_value (ds : string) : Z := digits_value_from 0 ds.

(** The binary64 number nearest to [(-1)^neg * m * 10^e10], for [0 <= m]. *)
Definition decimal_to_float (neg : bool) (m e10 : Z) : float :=
  match m with
  | Zpos p =>
      if 0 <=? e10 then
        binary_normalize prec emax
          ((if neg then Zneg p else Zpos p) * 10 ^ e10) 0 false
      else
        SFdiv prec emax (S754_finite neg p 0)
          (S754_finite false (Z.to_pos (10 ^ (- e10))) 0)
  | _ => S754_zero neg
  end.

(** An exponent part [e] or [E], an optional sign and at least one digit;
    anything else is left unread. *)
Definition parse_exponent (s : string) : Z * string :=
  match s with
  | String c r =>
      if eqc c "e" || eqc c "E" then
        let '(neg, r1) := take_sign r in
        let '(ds, r2) := span_digits r1 in
        if is_empty ds then (0, s)
        else ((if neg then - digits_value ds else digits_value ds), r2)
      else (0, s)
  | EmptyString => (0, s)
  end.

(** [_Py_dg_strtod]: sign, digits, an optional point and digits, an optional
    exponent; at least one digit.  Returns the value and the unread rest. *)
Definition parse_decimal (s : string) : option (float * string) :=
  let '(neg, s1) := take_sign s in
  let '(ip, s2) := span_digits s1 in
  let '(fp, s3) :=
    match s2 with
    | String c r => if eqc c "." then span_digits r else (EmptyString, s2)
    | EmptyString => (EmptyString, s2)
    end in
  if is_empty ip && is_empty fp then None
  else
    let '(e, s4) := parse_exponent s3 in
    Some (decimal_to_float neg (digits_value (ip +:+ fp))
            (e - Z.of_nat (String.length fp)), s4).

(** [_Py_parse_inf_or_nan] *)
Definition parse_inf_or_nan (s : string) : option (float * string) :=
  let '(neg, s1) := take_sign s in
  let l := c_lower s1 in
  if startswith "inf" l then
    if startswith "infinity" l then Some (S754_infinity neg, skip 8 s1)
    else Some (S754_infinity neg, skip 3 s1)
  else if startswith "nan" l then Some (S754_nan, skip 3 s1)
  else None.

(** [_PyOS_ascii_strtod] *)
Definition strtod (s : string) : option (float * string) :=
  match parse_decimal s with
  | Some r => Some r
  | None => parse_inf_or_nan s
  end.

(** [float_from_string_inner] *)
Definition float_from_string_inner (s : string) : outcome float :=
  match lstrip_by c_isspace s with
  | EmptyString => Raises ValueError
  | s1 =>
      match strtod (rstrip_by c_isspace s1) with
      | Some (x, EmptyString) => Returns x
      | _ => Raises ValueError
      end
  end.

(** [float(s)] for a [str] [s]. *)
Definition py_float (s : string) : outcome float :=
  match strip_underscores (transform s) with
  | Some u => float_from_string_inner u
  | None => Raises ValueError
  end.

(** [x] is finite, of exponent [e <= 0], and no farther from [num / den]
    than half a unit in its last place: a check of the literals below that
    does not go through [decimal_to_float]. *)
Definition within_half_ulp (x : float) (num den : Z) : bool :=
  match x with
  | S754_finite s m e =>
      (e <=? 0) && (0 <? den)
      && (2 * Z.abs (den * (if s then Zneg m else Zpos m) - num * 2 ^ (- e))
          <=? den)
  | _ => false
  end.

End PyFloat.

(** ** The runtime: [datetime] and [pathlib] *)

Record datetime : Set := Build_datetime {
  year : Z;
  month : Z;
  day : Z;
  hour : Z;
  minute : Z;
  second : Z;
  microsecond : Z;
  utcoffset : option Z
}.

(** [strptime s fmt] is [datetime.strptime(s, fmt)], [fromisoformat s] is
    [datetime.fromisoformat(s)], [Path_name p] is [Path(p).name] and
    [Path_stem p] is [Path(p).stem].  The two parsers are documented to
    raise [ValueError] on a string they cannot read. *)
Class PyRuntime : Type := {
  strptime : string -> string -> outcome datetime;
  fromisoformat : string -> outcome datetime;
  Path_name : string -> string;
  Path_stem : string -> string;
  strptime_raises :
    forall s fmt e, strptime s fmt = Raises e -> e = ValueError;
  fromisoformat_raises :
    forall s e, fromisoformat s = Raises e -> e = ValueError
}.

(** The file system as the parser sees it: for each path, what
    [Path(path).read_text(encoding="utf-8", errors="ignore")] gives, the
    decoded text or the error of the failed access. *)
Record World : Type := Build_World {
  files : string -> outcome string
}.

(** ** models.py *)

Module PiezometerMetadata.
Record t : Set := Build {
  investigation_point : string;
  series_number : option string;
  reading_time : option datetime;
  installation_depth : option PyFloat.float;
  input_filename : option string
}.
End PiezometerMetadata.

(** The data class annotates [reading_time] as [datetime], which Python does
    not enforce; the parser passes it the [Optional[datetime]] it has
    computed, and the field is typed accordingly. *)
Module PiezometerReading.
Record t : Set := Build {
  reading_time : option datetime;
  pressure_mh2o : option PyFloat.float;
  temperature_c : option PyFloat.float;
  battery_pct : option PyFloat.float
}.
End PiezometerReading.

Module ParsedPiezometer.
Record t : Set := Build {
  metadata : PiezometerMetadata.t;
  readings : list PiezometerReading.t
}.
End ParsedPiezometer.

(** ** parser.py: class [PVTParser] *)

Definition TAB : ascii := "009"%char.
Definition LF : ascii := "010"%char.

(** [x or y] on [Optional[str]]: [x] when it is a non-empty string. *)
Definition py_or {A : Type} (x : option string) (inj : string -> A) (y : A)
    : A :=
  match x with
  | Some v => if Str.truthy v then inj v else y
  | None => y
  end.

Module PVTParser.
Section Methods.
Context {RT : PyRuntime}.
Import Str.

Definition _HEADER_PREFIX : string := "date".

Definition _normalize_key (value : string) : string :=
  filter isalnum (lower value).

(** The [isinstance(value, str)] block of [_coerce_float]. *)
Definition clean_number (value : string) : string :=
  let cleaned := strip value in
  if contains "," cleaned && contains "." cleaned then
    if rfind "." cleaned <? rfind "," cleaned then
      replace "," "." (replace "." "" cleaned)
    else replace "," "" cleaned
  else if contains "," cleaned && negb (contains "." cleaned) then
    replace "," "." cleaned
  else cleaned.

Definition _coerce_float (value : option string)
    : outcome (option PyFloat.float) :=
  match value with
  | None => Returns None
  | Some s =>
      let value := clean_number s in
      try_except (PyFloat.py_float value) [TypeError; ValueError]
        (Returns None)
        (fun number =>
           if negb (PyFloat.isfinite number) then Returns None
           else Returns (Some number))
  end.

Definition _coerce_datetime (value : string) : outcome (option datetime) :=
  try_except (fromisoformat value) [ValueError] (Returns None)
    (fun d => Returns (Some d)).

(** The [for fmt in (...)] loop of [_parse_datetime_value] and the call
    that follows it. *)
Fixpoint try_formats (fmts : list string) (value : string)
    : outcome (option datetime) :=
  match fmts with
  | [] => _coerce_datetime value
  | fmt :: rest =>
      try_except (strptime (strip value) fmt) [ValueError]
        (try_formats rest value)
        (fun d => Returns (Some d))
  end.

Definition _parse_datetime_value (value : option string)
    : outcome (option datetime) :=
  match value with
  | None => Returns None
  | Some v =>
      if negb (truthy v) then Returns None
      else try_formats ["%Y-%m-%d %H:%M"; "%Y-%m-%d %H:%M:%S"] v
  end.

Definition _parse_datetime_parts (date_value time_value : string)
    : outcome (option datetime) :=
  if negb (truthy date_value) || negb (truthy time_value) then Returns None
  else
    let combined := strip date_value +:+ " " +:+ strip time_value in
    _parse_datetime_value (Some combined).

(** One turn of the loop that fills [values]. *)
Definition metadata_step (values : gmap string string) (part : string)
    : gmap string string :=
  if negb (contains ":" part) then values
  else
    match split_once ":" part with
    | Some (key, value) => <[_normalize_key key := strip value]> values
    | None => values
    end.

Definition metadata_parts (line : string) : list string :=
  List.filter truthy (map strip (split "," line)).

Definition metadata_values (line : string) : gmap string string :=
  fold_left metadata_step (metadata_parts line) ∅.

Definition _parse_metadata_line (line file_path : string)
    : outcome PiezometerMetadata.t :=
  let values := metadata_values line in
  let series_number := values !! "serienumber" in
  reading_time <- _parse_datetime_value (values !! "readingtime") ;;
  let measure_point :=
    py_or (values !! "measurepoint") id (Path_stem file_path) in
  installation_depth <-
    _coerce_float
      (py_or (values !! "installationdepthm") Some
         (values !! "installationdepth")) ;;
  Returns {|
    PiezometerMetadata.investigation_point := measure_point;
    PiezometerMetadata.series_number := series_number;
    PiezometerMetadata.reading_time := reading_time;
    PiezometerMetadata.installation_depth := installation_depth;
    PiezometerMetadata.input_filename := Some (Path_name file_path)
  |}.

(** The first loop of [_parse_text_file]. *)
Fixpoint find_meta_line (lines : list string) : string :=
  match lines with
  | [] => ""
  | line :: rest =>
      if truthy (strip line) then strip line else find_meta_line rest
  end.

(** The second loop: the index of the header line, counted from [idx]. *)
Fixpoint find_header (idx : nat) (lines : list string) : option nat :=
  match lines with
  | [] => None
  | line :: rest =>
      if startswith _HEADER_PREFIX (lower (strip line)) then Some idx
      else find_header (S idx) rest
  end.

(** [data_start] once the units row has been looked at; [lines !! i] is
    [Some] exactly when [i < len(lines)]. *)
Definition data_start_after (lines : list string) (header_index : nat)
    : nat :=
  let data_start := (header_index + 1)%nat in
  match lines !! data_start with
  | Some l =>
      let unit_line := strip l in
      if truthy unit_line
         && (contains "(" unit_line
             || startswith (String TAB "") unit_line)
      then (data_start + 1)%nat
      else data_start
  | None => data_start
  end.

(** [_coerce_float(parts[i]) if len(parts) > i else None] *)
Definition float_field (parts : list string) (i : nat)
    : outcome (option PyFloat.float) :=
  match parts !! i with
  | Some field => _coerce_float (Some field)
  | None => Returns None
  end.

(** The body of the loop over the data lines; [readings] is the list built
    so far. *)
Definition row_step (line : string) (readings : list PiezometerReading.t)
    : outcome (list PiezometerReading.t) :=
  if negb (truthy (strip line)) then Returns readings
  else
    let parts := split TAB line in
    match parts with
    | date_value :: time_value :: _ =>
        reading_time <- _parse_datetime_parts date_value time_value ;;
        match reading_time with
        | None => Returns readings
        | Some _ =>
            pressure <- float_field parts 2 ;;
            temperature <- float_field parts 3 ;;
            battery <- float_field parts 4 ;;
            Returns (readings ++ [ {|
              PiezometerReading.reading_time := reading_time;
              PiezometerReading.pressure_mh2o := pressure;
              PiezometerReading.temperature_c := temperature;
              PiezometerReading.battery_pct := battery
            |} ])
        end
    | _ => Returns readings
    end.

(** [_parse_text_file] from the decoded text on. *)
Definition parse_text (text file_path : string)
    : outcome ParsedPiezometer.t :=
  let lines := map (rstrip_char LF) (splitlines text) in
  let meta_line := find_meta_line lines in
  metadata <- _parse_metadata_line meta_line file_path ;;
  readings <-
    match find_header 0 lines with
    | Some header_index =>
        for_each (drop (data_start_after lines header_index) lines)
          row_step []
    | None => Returns []
    end ;;
  Returns {|
    ParsedPiezometer.metadata := metadata;
    ParsedPiezometer.readings := readings
  |}.

Definition _parse_text_file (file_path : string) (w : World)
    : outcome ParsedPiezometer.t * World :=
  match files w file_path with
  | Returns text => (parse_text text file_path, w)
  | Raises e => (Raises e, w)
  end.

Definition parse (file_path : string) (w : World)
    : outcome (list ParsedPiezometer.t) * World :=
  let '(r, w') := _parse_text_file file_path w in
  (parsed <- r ;; Returns [parsed], w').

End Methods.
End PVTParser.

(** ** The object store

    What the parser creates, changes and returns are Python objects with an
    identity.  A [Machine] holds the file system and the store, which maps
    the identity of every live object to its content; a method is a state
    transformer on machines.  Strings, floats, datetimes and [None] are
    immutable and stay values.  A list that one expression builds and that
    is then only read ([lines], [parts]) stays a Rocq list; the [values]
    dictionary, the [readings] list, the data-class instances, the returned
    list and the parser object itself live in the store. *)

Module Store.

Definition loc : Set := positive.

Inductive object : Type :=
  | OList (items : list loc)
  | ODict (entries : gmap string string)
  | OParser (attrs : gmap string string)
  | OMetadata (fields : PiezometerMetadata.t)
  | OReading (fields : PiezometerReading.t)
  | OParsed (metadata readings : loc).

Record Machine : Type := Build_Machine {
  world : World;
  heap : gmap loc object
}.

Definition M (A : Type) : Type := Machine -> outcome A * Machine.

Definition ret {A : Type} (a : A) : M A := fun m => (Returns a, m).

Definition raise {A : Type} (e : exception) : M A := fun m => (Raises e, m).

Definition bind {A B : Type} (c : M A) (k : A -> M B) : M B :=
  fun m =>
    match c m with
    | (Returns a, m') => k a m'
    | (Raises e, m') => (Raises e, m')
    end.

(** A call that touches neither the store nor the file system. *)
Definition lift {A : Type} (c : outcome A) : M A := fun m => (c, m).

(** A new object: its identity is one that no live object has. *)
Definition alloc (o : object) : M loc :=
  fun m =>
    let l := fresh (dom (heap m)) in
    (Returns l, {| world := world m; heap := <[l := o]> (heap m) |}).

(** The object behind a reference.  The error stands for Python's on a
    reference that does not hold what the statement expects. *)
Definition deref (l : loc) : M object :=
  fun m =>
    match heap m !! l with
    | Some o => (Returns o, m)
    | None => (Raises TypeError, m)
    end.

Definition assign (l : loc) (o : object) : M unit :=
  fun m => (Returns tt, {| world := world m; heap := <[l := o]> (heap m) |}).

(** [Path(path).read_text(encoding="utf-8", errors="ignore")] *)
Definition read_text (path : string) : M string :=
  fun m => (files (world m) path, m).

End Store.

Notation "x <~ c ;; k" := (Store.bind c (fun x => k))
  (at level 100, c at next level, right associativity).

Module Py.
Import Store.

(** [xs.append(x)] *)
Definition list_append (xs x : loc) : M unit :=
  o <~ deref xs ;;
  match o with
  | OList items => assign xs (OList (items ++ [x]))
  | _ => raise TypeError
  end.

(** [d[key] = value] *)
Definition dict_setitem (d : loc) (key value : string) : M unit :=
  o <~ deref d ;;
  match o with
  | ODict entries => assign d (ODict (<[key := value]> entries))
  | _ => raise TypeError
  end.

(** [d.get(key)] *)
Definition dict_get (d : loc) (key : string) : M (option string) :=
  o <~ deref d ;;
  match o with
  | ODict entries => ret (entries !! key)
  | _ => raise TypeError
  end.

(** [self.name] for a name that the class body binds to [class_value]: the
    attribute of the instance when it has one, else that of the class. *)
Definition getattr (self : loc) (name class_value : string) : M string :=
  o <~ deref self ;;
  match o with
  | OParser attrs => ret (default class_value (attrs !! name))
  | _ => raise TypeError
  end.

(** [for x in xs: body(x)] *)
Fixpoint for_in {A : Type} (xs : list A) (body : A -> M unit) : M unit :=
  match xs with
  | [] => ret tt
  | x :: xs' => _ <~ body x ;; for_in xs' body
  end.

End Py.

(** ** parser.py on the store

    The methods again, with the objects they create and change.  The pure
    helpers ([_coerce_float], the datetime helpers, [_normalize_key]) work
    on strings and numbers only and are those of [PVTParser]. *)

Module Stateful.
Section Methods.
Context {RT : PyRuntime}.
Import Str Store Py.

Definition _parse_metadata_line (self : loc) (line file_path : string)
    : M loc :=
  let parts := List.filter truthy (map strip (split "," line)) in
  values <~ alloc (ODict ∅) ;;
  _ <~ for_in parts (fun part =>
         if negb (contains ":" part) then ret tt
         else
           match split_once ":" part with
           | Some (key, value) =>
               dict_setitem values (PVTParser._normalize_key key)
                 (strip value)
           | None => ret tt
           end) ;;
  series_number <~ dict_get values "serienumber" ;;
  reading_time_value <~ dict_get values "readingtime" ;;
  reading_time <~ lift (PVTParser._parse_datetime_value reading_time_value) ;;
  measure_point_value <~ dict_get values "measurepoint" ;;
  let measure_point :=
    py_or measure_point_value id (Path_stem file_path) in
  depth_m <~ dict_get values "installationdepthm" ;;
  depth_value <~
    match depth_m with
    | Some v =>
        if truthy v then ret (Some v)
        else dict_get values "installationdepth"
    | None => dict_get values "installationdepth"
    end ;;
  installation_depth <~ lift (PVTParser._coerce_float depth_value) ;;
  alloc (OMetadata {|
    PiezometerMetadata.investigation_point := measure_point;
    PiezometerMetadata.series_number := series_number;
    PiezometerMetadata.reading_time := reading_time;
    PiezometerMetadata.installation_depth := installation_depth;
    PiezometerMetadata.input_filename := Some (Path_name file_path)
  |}).

(** The loop that looks for the header; [self._HEADER_PREFIX] is read at
    every turn. *)
Fixpoint find_header (self : loc) (idx : nat) (lines : list string)
    : M (option nat) :=
  match lines with
  | [] => ret None
  | line :: rest =>
      prefix <~ getattr self "_HEADER_PREFIX" PVTParser._HEADER_PREFIX ;;
      if startswith prefix (lower (strip line)) then ret (Some idx)
      else find_header self (S idx) rest
  end.

(** The body of the loop over the data lines; [readings] is the list
    object that the loop fills. *)
Definition row_step (readings : loc) (line : string) : M unit :=
  if negb (truthy (strip line)) then ret tt
  else
    let parts := split TAB line in
    match parts with
    | date_value :: time_value :: _ =>
        reading_time <~
          lift (PVTParser._parse_datetime_parts date_value time_value) ;;
        match reading_time with
        | None => ret tt
        | Some _ =>
            pressure <~ lift (PVTParser.float_field parts 2) ;;
            temperature <~ lift (PVTParser.float_field parts 3) ;;
            battery <~ lift (PVTParser.float_field parts 4) ;;
            reading <~ alloc (OReading {|
              PiezometerReading.reading_time := reading_time;
              PiezometerReading.pressure_mh2o := pressure;
              PiezometerReading.temperature_c := temperature;
              PiezometerReading.battery_pct := battery
            |}) ;;
            list_append readings reading
        end
    | _ => ret tt
    end.

Definition _parse_text_file (self : loc) (file_path : string) : M loc :=
  text <~ read_text file_path ;;
  let lines := map (rstrip_char LF) (splitlines text) in
  let meta_line := PVTParser.find_meta_line lines in
  metadata <~ _parse_metadata_line self meta_line file_path ;;
  header_index <~ find_header self 0 lines ;;
  readings <~ alloc (OList []) ;;
  _ <~ match header_index with
       | Some header_index =>
           for_in (drop (PVTParser.data_start_after lines header_index) lines)
             (row_step readings)
       | None => ret tt
       end ;;
  alloc (OParsed metadata readings).

(** [PVTParser.parse]: [return [self._parse_text_file(file_path)]] *)
Definition parse (self : loc) (file_path : string) : M loc :=
  parsed <~ _parse_text_file self file_path ;;
  alloc (OList [parsed]).

(** The function [parse] of the module: [PVTParser().parse(file_path)] *)
Definition module_parse (file_path : string) : M loc :=
  self <~ alloc (OParser ∅) ;;
  parse self file_path.

End Methods.
End Stateful.

(** ** Reading a result out of the store *)

(** [self] is a [PVTParser] as the class makes it: the class body gives it
    no [__init__], and nothing has bound [_HEADER_PREFIX] on the
    instance. *)
Definition is_parser (m : Store.Machine) (self : Store.loc) : Prop :=
  exists attrs,
    Store.heap m !! self = Some (Store.OParser attrs)
    /\ attrs !! "_HEADER_PREFIX" = None.

Definition reify_reading (h : gmap Store.loc Store.object) (l : Store.loc)
    : option PiezometerReading.t :=
  match h !! l with
  | Some (Store.OReading fields) => Some fields
  | _ => None
  end.

Definition reify_parsed (h : gmap Store.loc Store.object) (l : Store.loc)
    : option ParsedPiezometer.t :=
  match h !! l with
  | Some (Store.OParsed metadata readings) =>
      match h !! metadata, h !! readings with
      | Some (Store.OMetadata fields), Some (Store.OList items) =>
          rows ← mapM (reify_reading h) items ;
          Some {|
            ParsedPiezometer.metadata := fields;
            ParsedPiezometer.readings := rows
          |}
      | _, _ => None
      end
  | _ => None
  end.

(** The value of the list object [l]: the aggregate that Python's [==]
    compares. *)
Definition reify (h : gmap Store.loc Store.object) (l : Store.loc)
    : option (list ParsedPiezometer.t) :=
  match h !! l with
  | Some (Store.OList items) => mapM (reify_parsed h) items
  | _ => None
  end.

(** The objects that make up a [ParsedPiezometer]: its metadata, its list
    of readings and the readings. *)
Definition parsed_footprint (h : gmap Store.loc Store.object)
    (l : Store.loc) : list Store.loc :=
  match h !! l with
  | Some (Store.OParsed metadata readings) =>
      metadata :: readings ::
        match h !! readings with
        | Some (Store.OList items) => items
        | _ => []
        end
  | _ => []
  end.

(** The objects that make up the result [l]: the list, its elements and
    what these are made of. *)
Definition footprint (h : gmap Store.loc Store.object) (l : Store.loc)
    : list Store.loc :=
  l :: match h !! l with
       | Some (Store.OList items) =>
           items ++ concat (map (parsed_footprint h) items)
       | _ => []
       end.

(** What a call gives its caller, read out of the store that it leaves. *)
Definition observed (call : outcome Store.loc * Store.Machine)
    : outcome (option (list ParsedPiezometer.t)) :=
  match call with
  | (Returns l, m) => Returns (reify (Store.heap m) l)
  | (Raises e, _) => Raises e
  end.

(** ** Vocabulary of the specification *)

(** What a call gave back, [d] if it raised. *)
Definition returned {A : Type} (c : outcome A) (d : A) : A :=
  match c with
  | Returns a => a
  | Raises _ => d
  end.

(** The number a [float(...)] call stands for in a result: its value when
    the call returns a finite number, null otherwise. *)
Definition finite_value (c : outcome PyFloat.float) : option PyFloat.float :=
  match c with
  | Returns x => if PyFloat.isfinite x then Some x else None
  | Raises _ => None
  end.

(** The binary64 numbers written [12.5], [1234.56] and [1.234]. *)
Definition float_12_5 : PyFloat.float :=
  S754_finite false 7036874417766400 (-49).

Definition float_1234_56 : PyFloat.float :=
  S754_finite false 5429652300748554 (-42).

Definition float_1_234 : PyFloat.float :=
  S754_finite false 5557441940175192 (-52).

(** Of [','] and ['.'], the one whose last occurrence comes later in [s],
    and the other one. *)
Definition later_separator (s : string) : ascii :=
  if Str.rfind "." s <? Str.rfind "," s then ","%char else "."%char.

Definition earlier_separator (s : string) : ascii :=
  if Str.rfind "." s <? Str.rfind "," s then "."%char else ","%char.

(** [s] read with its later separator as the decimal point and its earlier
    separator, a thousands separator, taken out. *)
Definition as_decimal (s : string) : string :=
  Str.subst_char (later_separator s) "."
    (Str.filter (fun c => negb (Str.eqc c (earlier_separator s))) s).

(** The lines of a file as [_parse_text_file] sees them. *)
Definition lines_of (text : string) : list string :=
  map (Str.rstrip_char LF) (Str.splitlines text).

(** A float field holds no infinity and no NaN. *)
Definition finite_field (o : option PyFloat.float) : Prop :=
  forall x, o = Some x -> PyFloat.isfinite x = true.

Definition finite_reading (r : PiezometerReading.t) : Prop :=
  finite_field (PiezometerReading.pressure_mh2o r)
  /\ finite_field (PiezometerReading.temperature_c r)
  /\ finite_field (PiezometerReading.battery_pct r).


(** The float that an optional string stands for: null for null, else the
    finite value of [float] on the cleaned string. *)
Definition optional_float (o : option string) : option PyFloat.float :=
  match o with
  | Some s => finite_value (PyFloat.py_float (PVTParser.clean_number s))
  | None => None
  end.

(** What a parser of the runtime read: the datetime, or null when it raised. *)
Definition parsed_datetime (c : outcome datetime) : option datetime :=
  match c with
  | Returns d => Some d
  | Raises _ => None
  end.

(** The first non-null element. *)
Fixpoint first_some {A : Type} (candidates : list (option A)) : option A :=
  match candidates with
  | [] => None
  | Some a :: _ => Some a
  | None :: rest => first_some rest
  end.

(** [line] reads as a header line. *)
Definition is_header (line : string) : bool :=
  Str.startswith PVTParser._HEADER_PREFIX (Str.lower (Str.strip line)).

(** The value of the numeric column [i] of a row: null when the row has no
    such column, else the finite value of [float] on the cleaned field. *)
Definition column_value (parts : list string) (i : nat)
    : option PyFloat.float :=
  match parts !! i with
  | Some field => finite_value (PyFloat.py_float (PVTParser.clean_number field))
  | None => None
  end.

(** The readings that the row [line] adds to the output: none or one. *)
Definition row_readings {RT : PyRuntime} (line : string)
    : list PiezometerReading.t :=
  returned (PVTParser.row_step line []) [].

(** The timestamp of the row [line]: its first two tab-separated fields,
    combined and parsed; null when there are fewer than two fields or when
    they do not parse. *)
Definition row_timestamp {RT : PyRuntime} (line : string) : option datetime :=
  match Str.split TAB line with
  | date_value :: time_value :: _ =>
      returned (PVTParser._parse_datetime_parts date_value time_value) None
  | _ => None
  end.

(** The readings of a file, row by row from the first data line on. *)
Definition file_readings {RT : PyRuntime} (lines : list string)
    : list PiezometerReading.t :=
  match PVTParser.find_header 0 lines with
  | Some header_index =>
      concat (map row_readings
                (drop (PVTParser.data_start_after lines header_index) lines))
  | None => []
  end.

(** A metadata token: [part] is one of the comma-separated parts of the
    line, stripped and non-empty, and reads [key:value]. *)
Definition token_of (line part key value : string) : Prop :=
  part ∈ PVTParser.metadata_parts line
  /\ Str.split_once ":" part = Some (key, value).

(** Two spellings of one token: the keys, free of [','] and [':'],
    normalize to the same key, and the values, free of [','], are equal up
    to surrounding white space. *)
Inductive same_token : string -> string -> Prop :=
  | same_token_refl (part : string) :
      Str.contains "," part = false -> same_token part part
  | same_token_spelling (key1 key2 value1 value2 : string) :
      Str.contains "," key1 = false -> Str.contains ":" key1 = false ->
      Str.contains "," key2 = false -> Str.contains ":" key2 = false ->
      Str.contains "," value1 = false -> Str.contains "," value2 = false ->
      PVTParser._normalize_key key1 = PVTParser._normalize_key key2 ->
      Str.strip value1 = Str.strip value2 ->
      same_token (key1 +:+ String ":" value1) (key2 +:+ String ":" value2).

(** ** A reference runtime

    A runtime to run the parser on examples: [strptime] reads the two
    formats of the parser in their zero-padded form, [fromisoformat] reads
    [YYYY-MM-DD], alone or followed by one character and [HH:MM] or
    [HH:MM:SS], and paths are POSIX paths. *)

Module Reference.
Import Str.

Definition of_option {A : Type} (o : option A) : outcome A :=
  match o with
  | Some a => Returns a
  | None => Raises ValueError
  end.

Definition two_digits (a b : ascii) : option Z :=
  if isdigit a && isdigit b then Some (10 * digit_val a + digit_val b)
  else None.

Definition is_leap (y : Z) : bool :=
  (y mod 4 =? 0) && (negb (y mod 100 =? 0) || (y mod 400 =? 0)).

Definition days_in_month (y m : Z) : Z :=
  if m =? 2 then (if is_leap y then 29 else 28)
  else if (m =? 4) || (m =? 6) || (m =? 9) || (m =? 11) then 30
  else 31.

Definition valid_date (y m d : Z) : bool :=
  (1 <=? y) && (1 <=? m) && (m <=? 12) && (1 <=? d)
  && (d <=? days_in_month y m).

(** [YYYY-MM-DD] at the head of [s], and the rest. *)
Definition read_date (s : string) : option (Z * Z * Z * string) :=
  match s with
  | String y1 (String y2 (String y3 (String y4 (String dash1
      (String m1 (String m2 (String dash2 (String d1 (String d2 rest)))))))))
    =>
      if eqc dash1 "-" && eqc dash2 "-" then
        yh ← two_digits y1 y2 ;
        yl ← two_digits y3 y4 ;
        m ← two_digits m1 m2 ;
        d ← two_digits d1 d2 ;
        let y := 100 * yh + yl in
        if valid_date y m d then Some (y, m, d, rest) else None
      else None
  | _ => None
  end.

(** [HH:MM], or [HH:MM:SS] when [with_seconds], and nothing after it. *)
Definition read_time (with_seconds : bool) (s : string)
    : option (Z * Z * Z) :=
  match s with
  | String h1 (String h2 (String colon1 (String m1 (String m2 rest)))) =>
      if eqc colon1 ":" then
        h ← two_digits h1 h2 ;
        mi ← two_digits m1 m2 ;
        if (h <=? 23) && (mi <=? 59) then
          match with_seconds, rest with
          | false, EmptyString => Some (h, mi, 0)
          | true, String colon2 (String s1 (String s2 EmptyString)) =>
              if eqc colon2 ":" then
                sec ← two_digits s1 s2 ;
                if sec <=? 59 then Some (h, mi, sec) else None
              else None
          | _, _ => None
          end
        else None
      else None
  | _ => None
  end.

Definition make_datetime (date : Z * Z * Z) (time : Z * Z * Z) : datetime :=
  let '(y, m, d) := date in
  let '(h, mi, sec) := time in
  {| year := y; month := m; day := d; hour := h; minute := mi;
     second := sec; microsecond := 0; utcoffset := None |}.

Definition strptime (s fmt : string) : outcome datetime :=
  let with_seconds :=
    if String.eqb fmt "%Y-%m-%d %H:%M" then Some false
    else if String.eqb fmt "%Y-%m-%d %H:%M:%S" then Some true
    else None in
  of_option (
    ws ← with_seconds ;
    '(y, m, d, rest) ← read_date s ;
    match rest with
    | String sp rest' =>
        if eqc sp " " then
          time ← read_time ws rest' ; Some (make_datetime (y, m, d) time)
        else None
    | EmptyString => None
    end).

Definition fromisoformat (s : string) : outcome datetime :=
  of_option (
    '(y, m, d, rest) ← read_date s ;
    match rest with
    | EmptyString => Some (make_datetime (y, m, d) (0, 0, 0))
    | String _ rest' =>
        match read_time false rest' with
        | Some time => Some (make_datetime (y, m, d) time)
        | None =>
            time ← read_time true rest' ; Some (make_datetime (y, m, d) time)
        end
    end).

(** [PurePosixPath(p).name]: the last component, [''] when there is none. *)
Definition Path_name (p : string) : string :=
  List.last
    (List.filter (fun part => truthy part && negb (String.eqb part "."))
       (split "/" p))
    EmptyString.

(** [PurePosixPath(p).stem]: the name up to its last dot, when that dot is
    neither its first nor its last character. *)
Definition Path_stem (p : string) : string :=
  let name := Path_name p in
  let i := rfind "." name in
  if (0 <? i) && (i <? Z.of_nat (String.length name) - 1)
  then String.substring 0 (Z.to_nat i) name
  else name.

End Reference.

(** ** Sample files *)

Definition tab : string := String TAB "".
Definition newline : string := String LF "".

(** A header, a units row that begins with a tab, and two data rows. *)
Definition units_row : string := tab +:+ tab +:+ "m" +:+ tab +:+ "C" +:+ tab +:+ "%".

Definition sample_with_units : string :=
  "MeasurePoint: BH-1, SerieNumber: 123, ReadingTime: 2023-05-01 10:00"
  +:+ newline +:+ newline
  +:+ "Date" +:+ tab +:+ "Time" +:+ tab +:+ "Pressure" +:+ tab +:+ "Temp"
  +:+ tab +:+ "Battery" +:+ newline
  +:+ units_row +:+ newline
  +:+ "2023-05-01" +:+ tab +:+ "10:05:00" +:+ tab +:+ "12,3" +:+ tab +:+ "8,1"
  +:+ tab +:+ "95" +:+ newline
  +:+ "2023-05-01" +:+ tab +:+ "10:15" +:+ newline.

(** A metadata line whose [MeasurePoint] is empty, and one without it. *)
Definition sample_empty_point : string :=
  "MeasurePoint: , SerieNumber: 42" +:+ newline.

Definition sample_no_point : string :=
  "SerieNumber: 42, InstallationDepth: 12,5" +:+ newline.

(** A data row with a date and a time and no numeric column, and one
    with an empty time field. *)
Definition two_field_row : string := "2023-05-01" +:+ tab +:+ "10:15".

Definition row_without_time : string :=
  "2023-05-01" +:+ tab +:+ tab +:+ "12,3".

(** A file with a metadata line and a data row but no header line. *)
Definition sample_no_header : string :=
  "MeasurePoint: BH-1" +:+ newline
  +:+ "2023-05-01" +:+ tab +:+ "10:05" +:+ newline.

(** A file of blank lines only. *)
Definition sample_blank : string :=
  newline +:+ "   " +:+ newline +:+ tab +:+ newline.


(** * Verification *)

(** ** The reference runtime is a runtime *)

Lemma of_option_raises {A : Type} (o : option A) (e : exception) :
  Reference.of_option o = Raises e -> e = ValueError.
Proof. destruct o; simpl; congruence. Qed.

#[local] Instance reference_runtime : PyRuntime := {|
  strptime := Reference.strptime;
  fromisoformat := Reference.fromisoformat;
  Path_name := Reference.Path_name;
  Path_stem := Reference.Path_stem;
  strptime_raises := fun s fmt e => of_option_raises _ e;
  fromisoformat_raises := fun s e => of_option_raises _ e
|}.

(** ** Facts about the [str] primitives *)

Section StrFacts.
Import Str.

Lemma append_nil_l (s : string) : "" +:+ s = s.
Proof. reflexivity. Qed.

Lemma append_cons (c : ascii) (a b : string) :
  String c a +:+ b = String c (a +:+ b).
Proof. reflexivity. Qed.

Lemma append_nil_r (s : string) : s +:+ "" = s.
Proof. induction s as [|c s IH]; [reflexivity|]. by rewrite append_cons, IH. Qed.

Lemma append_assoc (a b c : string) : (a +:+ b) +:+ c = a +:+ (b +:+ c).
Proof.
  induction a as [|x a IH]; [reflexivity|].
  by rewrite !append_cons, IH.
Qed.

Lemma eqc_true (a b : ascii) : eqc a b = true <-> a = b.
Proof. apply Ascii.eqb_eq. Qed.

Lemma eqc_false (a b : ascii) : eqc a b = false <-> a <> b.
Proof. apply Ascii.eqb_neq. Qed.

Lemma eqc_refl (a : ascii) : eqc a a = true.
Proof. apply Ascii.eqb_refl. Qed.

Lemma eqc_sym (a b : ascii) : eqc a b = eqc b a.
Proof. apply Ascii.eqb_sym. Qed.

(** A character that [p] rejects differs from one that [p] accepts. *)
Lemma eqc_of_pred (p : ascii -> bool) (a c : ascii) :
  p a = true -> p c = false -> eqc a c = false.
Proof. intros Ha Hc. apply eqc_false. intros ->. congruence. Qed.

Lemma rstrip_by_cons (p : ascii -> bool) (c : ascii) (s : string) :
  rstrip_by p (String c s)
  = if is_empty (rstrip_by p s) && p c then ""
    else String c (rstrip_by p s).
Proof. simpl. destruct (rstrip_by p s); simpl; destruct (p c); reflexivity. Qed.

Lemma count_cons (ch c : ascii) (s : string) :
  count ch (String c s) = ((if eqc c ch then 1 else 0) + count ch s)%nat.
Proof. reflexivity. Qed.

Lemma count_app (c : ascii) (a b : string) :
  count c (a +:+ b) = (count c a + count c b)%nat.
Proof.
  induction a as [|x a IH]; [reflexivity|].
  rewrite append_cons. simpl. rewrite IH. lia.
Qed.

Lemma contains_count (c : ascii) (s : string) :
  contains c s = false <-> count c s = O.
Proof.
  induction s as [|a s IH]; simpl; [done|].
  destruct (eqc a c); simpl; [split; [discriminate|lia]|exact IH].
Qed.

Lemma contains_count_pos (c : ascii) (s : string) :
  contains c s = true <-> (0 < count c s)%nat.
Proof.
  destruct (contains c s) eqn:E.
  - split; [intros _|done].
    destruct (count c s) eqn:Ec; [|lia].
    apply contains_count in Ec. congruence.
  - apply contains_count in E. rewrite E. split; [discriminate|lia].
Qed.

Lemma count_lstrip_by (p : ascii -> bool) (c : ascii) (s : string) :
  p c = false -> count c (lstrip_by p s) = count c s.
Proof.
  intros Hc. induction s as [|a s IH]; simpl; [done|].
  destruct (p a) eqn:Ha; [|done].
  by rewrite IH, (eqc_of_pred p a c).
Qed.

Lemma count_rstrip_by (p : ascii -> bool) (c : ascii) (s : string) :
  p c = false -> count c (rstrip_by p s) = count c s.
Proof.
  intros Hc. induction s as [|a s IH]; [done|].
  rewrite rstrip_by_cons.
  destruct (is_empty (rstrip_by p s) && p a) eqn:E; simpl.
  - apply andb_true_iff in E as [E Ha].
    rewrite (eqc_of_pred p a c) by done. rewrite <- IH.
    by destruct (rstrip_by p s).
  - by rewrite IH.
Qed.

Lemma count_strip (c : ascii) (s : string) :
  isspace c = false -> count c (strip s) = count c s.
Proof.
  intros Hc. unfold strip, rstrip, lstrip.
  by rewrite count_rstrip_by, count_lstrip_by.
Qed.

Lemma contains_strip (c : ascii) (s : string) :
  isspace c = false -> contains c (strip s) = contains c s.
Proof.
  intros Hc. destruct (contains c s) eqn:E.
  - apply contains_count_pos. rewrite count_strip by done.
    by apply contains_count_pos.
  - apply contains_count. rewrite count_strip by done.
    by apply contains_count.
Qed.

Lemma replace_char (old new : ascii) (s : string) :
  replace old (String new "") s = subst_char old new s.
Proof.
  induction s as [|a s IH]; simpl; [done|].
  destruct (eqc a old); rewrite IH; reflexivity.
Qed.

Lemma replace_empty (old : ascii) (s : string) :
  replace old "" s = filter (fun c => negb (eqc c old)) s.
Proof.
  induction s as [|a s IH]; simpl; [done|].
  destruct (eqc a old); simpl; by rewrite IH.
Qed.

Lemma subst_char_same (c : ascii) (s : string) : subst_char c c s = s.
Proof.
  induction s as [|a s IH]; simpl; [done|].
  rewrite IH. destruct (eqc a c) eqn:E; [|done].
  apply eqc_true in E. by subst.
Qed.

Lemma count_subst_char (old new : ascii) (s : string) :
  old <> new ->
  count new (subst_char old new s) = (count old s + count new s)%nat.
Proof.
  intros Hne. induction s as [|a s IH]; simpl; [done|].
  rewrite IH. destruct (eqc a old) eqn:E.
  - apply eqc_true in E. subst a. rewrite eqc_refl.
    apply eqc_false in Hne. rewrite Hne. lia.
  - destruct (eqc a new); lia.
Qed.

End StrFacts.

(** ** Facts about [float(str)] *)

Section FloatFacts.
Import Str PyFloat.

(** [float] of a [str] raises nothing but [ValueError]. *)
Lemma py_float_raises (s : string) (e : exception) :
  py_float s = Raises e -> e = ValueError.
Proof.
  unfold py_float, float_from_string_inner.
  repeat case_match; congruence.
Qed.

Lemma count_remove_underscores (c prev : ascii) (s u : string) :
  eqc c "_" = false ->
  remove_underscores prev s = Some u -> count c u = count c s.
Proof.
  intros Hc. revert prev u.
  induction s as [|a s IH]; intros prev u; simpl.
  - destruct (eqc prev "_"); [discriminate|]. by intros [= <-].
  - destruct (eqc a "_") eqn:Ea.
    + apply eqc_true in Ea. subst a. rewrite eqc_sym, Hc. simpl.
      destruct (isdigit prev); [|discriminate]. apply IH.
    + destruct (eqc prev "_" && negb (isdigit a)); [discriminate|].
      destruct (remove_underscores a s) as [u'|] eqn:Eu; [|discriminate].
      simpl. intros [= <-]. simpl. by rewrite (IH _ _ Eu).
Qed.

Lemma count_strip_underscores (c : ascii) (s u : string) :
  eqc c "_" = false ->
  strip_underscores s = Some u -> count c u = count c s.
Proof.
  intros Hc. unfold strip_underscores.
  destruct (contains "_" s).
  - by apply count_remove_underscores.
  - by intros [= <-].
Qed.

(** A character that no numeral contains, except possibly as its one
    decimal point. *)
Section Inert.
Variable c : ascii.
Hypothesis c_not_space : c_isspace c = false.
Hypothesis c_not_minus : eqc c "-" = false.
Hypothesis c_not_plus : eqc c "+" = false.
Hypothesis c_not_digit : isdigit c = false.
Hypothesis c_not_e : eqc c "e" = false.
Hypothesis c_not_E : eqc c "E" = false.
Hypothesis c_lowercase : c_tolower c = c.
Hypothesis c_not_in_infinity : count c "infinity" = O.
Hypothesis c_not_in_nan : count c "nan" = O.

Lemma count_take_sign (s r : string) (neg : bool) :
  take_sign s = (neg, r) -> count c r = count c s.
Proof using All.
  destruct s as [|a s]; simpl; [by intros [= _ <-]|].
  destruct (eqc a "-") eqn:E1.
  { apply eqc_true in E1. subst a. intros [= _ <-].
    by rewrite eqc_sym, c_not_minus. }
  destruct (eqc a "+") eqn:E2.
  { apply eqc_true in E2. subst a. intros [= _ <-].
    by rewrite eqc_sym, c_not_plus. }
  by intros [= _ <-].
Qed.

Lemma count_span_digits (s ds r : string) :
  span_digits s = (ds, r) -> count c r = count c s.
Proof using All.
  revert ds r. induction s as [|a s IH]; intros ds r; simpl.
  - by intros [= _ <-].
  - destruct (isdigit a) eqn:Ea.
    + destruct (span_digits s) as [ds' r'] eqn:Es. intros [= _ <-].
      rewrite (eqc_of_pred isdigit a c) by done. simpl. by eapply IH.
    + by intros [= _ <-].
Qed.

Lemma count_parse_exponent (s r : string) (e : Z) :
  parse_exponent s = (e, r) -> count c r = count c s.
Proof using All.
  destruct s as [|a s]; simpl; [by intros [= _ <-]|].
  destruct (eqc a "e" || eqc a "E") eqn:Ea; [|by intros [= _ <-]].
  destruct (take_sign s) as [neg r1] eqn:E1.
  destruct (span_digits r1) as [ds r2] eqn:E2.
  destruct (is_empty ds); [by intros [= _ <-]|].
  intros [= _ <-].
  rewrite (count_span_digits _ _ _ E2), (count_take_sign _ _ _ E1).
  assert (eqc a c = false) as ->; [|done].
  apply eqc_false. intros ->.
  rewrite c_not_e, c_not_E in Ea. discriminate.
Qed.

Lemma count_parse_decimal (s r : string) (x : float) :
  parse_decimal s = Some (x, r) ->
  (count c s <= (if eqc c "." then 1 else 0) + count c r)%nat.
Proof using All.
  unfold parse_decimal.
  destruct (take_sign s) as [neg s1] eqn:E1.
  destruct (span_digits s1) as [ip s2] eqn:E2.
  rewrite <- (count_take_sign _ _ _ E1), <- (count_span_digits _ _ _ E2).
  assert (forall fp s3,
    match s2 with
    | String c0 r0 => if eqc c0 "." then span_digits r0 else ("", s2)
    | EmptyString => ("", s2)
    end = (fp, s3) ->
    (count c s2 <= (if eqc c "." then 1 else 0) + count c s3)%nat) as Hdot.
  { intros fp s3. destruct s2 as [|c0 r0]; [intros [= _ <-]; lia|].
    destruct (eqc c0 ".") eqn:E0; [|intros [= _ <-]; lia].
    apply eqc_true in E0. subst c0. intros E3.
    rewrite count_cons, (count_span_digits _ _ _ E3), (eqc_sym "." c).
    destruct (eqc c "."); lia. }
  destruct (match s2 with
            | String c0 r0 => if eqc c0 "." then span_digits r0 else ("", s2)
            | EmptyString => ("", s2)
            end) as [fp s3] eqn:E3.
  specialize (Hdot _ _ eq_refl).
  destruct (is_empty ip && is_empty fp); [discriminate|].
  destruct (parse_exponent s3) as [e s4] eqn:E4.
  intros [= _ <-]. by rewrite (count_parse_exponent _ _ _ E4).
Qed.

Lemma count_skip_prefix (p s : string) :
  startswith p (c_lower s) = true -> count c p = O ->
  count c (skip (String.length p) s) = count c s.
Proof using All.
  revert s. induction p as [|a p IH]; intros s; [done|].
  destruct s as [|b s]; simpl; [done|].
  intros [Hab Hp]%andb_true_iff Hc.
  apply eqc_true in Hab.
  destruct (eqc a c) eqn:Eac; [simpl in Hc; lia|].
  rewrite IH by (done || simpl in Hc; lia).
  assert (eqc b c = false) as ->; [|done].
  apply eqc_false. intros ->. apply eqc_false in Eac.
  rewrite c_lowercase in Hab. done.
Qed.

Lemma count_parse_inf_or_nan (s r : string) (x : float) :
  parse_inf_or_nan s = Some (x, r) -> count c r = count c s.
Proof using All.
  unfold parse_inf_or_nan.
  destruct (take_sign s) as [neg s1] eqn:E1.
  rewrite <- (count_take_sign _ _ _ E1).
  destruct (startswith "inf" (c_lower s1)) eqn:Einf.
  - destruct (startswith "infinity" (c_lower s1)) eqn:Einfinity.
    + intros [= _ <-]. by apply (count_skip_prefix "infinity").
    + intros [= _ <-]. apply (count_skip_prefix "inf"); [done|].
      revert c_not_in_infinity. simpl.
      destruct (eqc "i" c), (eqc "n" c), (eqc "f" c); simpl; lia.
  - destruct (startswith "nan" (c_lower s1)) eqn:Enan; [|discriminate].
    intros [= _ <-]. by apply (count_skip_prefix "nan").
Qed.

Lemma count_strtod (s r : string) (x : float) :
  strtod s = Some (x, r) ->
  (count c s <= (if eqc c "." then 1 else 0) + count c r)%nat.
Proof using All.
  unfold strtod. destruct (parse_decimal s) as [[x' r']|] eqn:E.
  - intros [= _ <-]. by eapply count_parse_decimal.
  - intros H. rewrite (count_parse_inf_or_nan _ _ _ H). lia.
Qed.

Lemma count_float_from_string_inner (s : string) (x : float) :
  float_from_string_inner s = Returns x ->
  (count c s <= (if eqc c "." then 1 else 0))%nat.
Proof using All.
  unfold float_from_string_inner.
  rewrite <- (count_lstrip_by c_isspace c s) by done.
  destruct (lstrip_by c_isspace s) as [|a s1] eqn:E1; [discriminate|].
  rewrite <- (count_rstrip_by c_isspace c (String a s1)) by done.
  destruct (strtod (rstrip_by c_isspace (String a s1)))
    as [[x' [|b r]]|] eqn:E2; try discriminate.
  intros _. apply count_strtod in E2. change (count c "") with O in E2. lia.
Qed.

End Inert.

Lemma count_transform_chars (s : string) :
  count "?" (transform_chars s) = O ->
  count "." (transform_chars s) = count "." s.
Proof.
  induction s as [|a s IH]; simpl; [done|].
  destruct (code a <? 127)%N eqn:Ea; simpl.
  - intros H. rewrite IH by lia. done.
  - destruct (isspace a) eqn:Es; simpl; [|discriminate].
    intros H. rewrite IH by lia.
    assert (eqc a "." = false) as ->; [|done].
    apply eqc_false. intros ->. discriminate.
Qed.

(** A string that [float] reads has at most one ['.']. *)
Lemma py_float_one_point (s : string) (x : float) :
  py_float s = Returns x -> (count "." s <= 1)%nat.
Proof.
  unfold py_float.
  destruct (strip_underscores (transform s)) as [u|] eqn:Eu; [|discriminate].
  intros Hx.
  pose proof (count_float_from_string_inner "." eq_refl eq_refl eq_refl
    eq_refl eq_refl eq_refl eq_refl eq_refl eq_refl u x Hx) as Hdot.
  pose proof (count_float_from_string_inner "?" eq_refl eq_refl eq_refl
    eq_refl eq_refl eq_refl eq_refl eq_refl eq_refl u x Hx) as Hq.
  simpl in Hdot, Hq.
  rewrite (count_strip_underscores "." _ _ eq_refl Eu) in Hdot.
  rewrite (count_strip_underscores "?" _ _ eq_refl Eu) in Hq.
  unfold transform in *. destruct (is_ascii s); [done|].
  rewrite <- count_transform_chars by lia. done.
Qed.

End FloatFacts.

(** ** Numeric coercion *)

Section CoerceFloat.
Import Str PyFloat PVTParser.

(** [_coerce_float] of a string returns, and returns the finite value of
    [float] on the cleaned string. *)
Lemma coerce_float_value (s : string) :
  _coerce_float (Some s) = Returns (finite_value (py_float (clean_number s))).
Proof.
  unfold _coerce_float, try_except, finite_value.
  destruct (py_float (clean_number s)) as [x|e] eqn:E.
  - by destruct (isfinite x).
  - apply py_float_raises in E. by subst e.
Qed.

Lemma clean_number_both (s : string) :
  contains "," s = true -> contains "." s = true ->
  clean_number s = as_decimal (strip s).
Proof.
  intros Hc Hp. unfold clean_number, as_decimal, later_separator,
    earlier_separator.
  rewrite !contains_strip, Hc, Hp by done. simpl.
  destruct (rfind "." (strip s) <? rfind "," (strip s)).
  - by rewrite replace_char, replace_empty.
  - by rewrite replace_empty, subst_char_same.
Qed.

Lemma clean_number_comma (s : string) :
  contains "," s = true -> contains "." s = false ->
  clean_number s = subst_char "," "." (strip s).
Proof.
  intros Hc Hp. unfold clean_number.
  rewrite !contains_strip, Hc, Hp by done. simpl.
  apply replace_char.
Qed.

Lemma coerce_float_comma_only (s : string) :
  contains "," s = true -> contains "." s = false ->
  _coerce_float (Some s)
  = Returns (finite_value (py_float (subst_char "," "." (strip s)))).
Proof. intros Hc Hp. by rewrite coerce_float_value, clean_number_comma. Qed.

(** C1.  Numeric coercion of a string in which both [','] and ['.'] occur
    reads the separator that occurs later as the decimal point and drops
    the earlier one: ["1.234,56"] and ["1,234.56"] both give 1234.56; with
    [','] alone the comma is the decimal point and ["12,5"] gives 12.5;
    null, an unreadable string such as ["abc"] and a non-finite value such
    as ["NaN"] or ["Infinity"] give null; the coercion never raises. *)
Theorem coerce_float_separators :
  (forall s, contains "," s = true -> contains "." s = true ->
     _coerce_float (Some s)
     = Returns (finite_value (py_float (as_decimal (strip s)))))
  /\ _coerce_float (Some "1.234,56") = Returns (Some float_1234_56)
  /\ _coerce_float (Some "1,234.56") = Returns (Some float_1234_56)
  /\ within_half_ulp float_1234_56 123456 100 = true
  /\ (forall s, contains "," s = true -> contains "." s = false ->
        _coerce_float (Some s)
        = Returns (finite_value (py_float (subst_char "," "." (strip s)))))
  /\ _coerce_float (Some "12,5") = Returns (Some float_12_5)
  /\ within_half_ulp float_12_5 125 10 = true
  /\ _coerce_float None = Returns None
  /\ _coerce_float (Some "abc") = Returns None
  /\ _coerce_float (Some "NaN") = Returns None
  /\ _coerce_float (Some "Infinity") = Returns None
  /\ (forall s e, py_float (clean_number s) = Raises e ->
        _coerce_float (Some s) = Returns None)
  /\ (forall s x, py_float (clean_number s) = Returns x ->
        isfinite x = false -> _coerce_float (Some s) = Returns None)
  /\ (forall value, exists r,
        _coerce_float value = Returns r
        /\ forall x, r = Some x -> isfinite x = true).
Proof.
  split; [|split; [|split; [|split; [|split; [|split; [|split; [|split;
    [|split; [|split; [|split; [|split; [|split]]]]]]]]]]]].
  - intros s Hc Hp. by rewrite coerce_float_value, clean_number_both.
  - vm_compute; reflexivity.
  - vm_compute; reflexivity.
  - vm_compute; reflexivity.
  - apply coerce_float_comma_only.
  - vm_compute; reflexivity.
  - vm_compute; reflexivity.
  - reflexivity.
  - vm_compute; reflexivity.
  - vm_compute; reflexivity.
  - vm_compute; reflexivity.
  - intros s e E. by rewrite coerce_float_value, E.
  - intros s x E Hx. rewrite coerce_float_value, E. simpl. by rewrite Hx.
  - intros [s|]; [|by exists None].
    exists (finite_value (py_float (clean_number s))).
    split; [apply coerce_float_value|].
    unfold finite_value. intros x.
    destruct (py_float (clean_number s)) as [y|]; [|done].
    destruct (isfinite y) eqn:E; [|done]. by intros [= <-].
Qed.

Lemma coerce_float_separators_witness :
  contains "," " 1.234.567,89 " = true
  /\ contains "." " 1.234.567,89 " = true
  /\ _coerce_float (Some " 1.234.567,89 ")
     = Returns (finite_value (py_float (as_decimal (strip " 1.234.567,89 ")))).
Proof.
  split; [reflexivity|]. split; [reflexivity|].
  apply (proj1 coerce_float_separators " 1.234.567,89 ");
    reflexivity.
Defined.

(** C10.  With commas and no period, every comma becomes a decimal point
    before the parse: ["1,234"] gives 1.234 and not 1234, and a string with
    two commas or more and no period gives null. *)
Theorem coerce_float_comma_decimal :
  (forall s, contains "," s = true -> contains "." s = false ->
     _coerce_float (Some s)
     = Returns (finite_value (py_float (subst_char "," "." (strip s)))))
  /\ _coerce_float (Some "1,234") = Returns (Some float_1_234)
  /\ within_half_ulp float_1_234 1234 1000 = true
  /\ _coerce_float (Some "1,234") <> _coerce_float (Some "1234")
  /\ (forall s, (2 <= count "," s)%nat -> contains "." s = false ->
        _coerce_float (Some s) = Returns None)
  /\ _coerce_float (Some "1,2,3") = Returns None.
Proof.
  split; [|split; [|split; [|split; [|split]]]].
  - apply coerce_float_comma_only.
  - vm_compute; reflexivity.
  - vm_compute; reflexivity.
  - intros E. vm_compute in E. discriminate.
  - intros s Hn Hp.
    assert (contains "," s = true) as Hc by (apply contains_count_pos; lia).
    rewrite coerce_float_comma_only by done.
    destruct (py_float (subst_char "," "." (strip s))) as [x|e] eqn:E;
      [|done].
    apply py_float_one_point in E.
    rewrite count_subst_char, !count_strip in E by done.
    lia.
  - vm_compute; reflexivity.
Qed.

Lemma coerce_float_comma_decimal_witness :
  (2 <= count "," "1,2,3")%nat /\ contains "." "1,2,3" = false
  /\ _coerce_float (Some "1,2,3") = Returns None.
Proof.
  split; [vm_compute; lia|]. split; [reflexivity|].
  apply (proj1 (proj2 (proj2 (proj2 (proj2 coerce_float_comma_decimal))))
           "1,2,3"); [vm_compute; lia|reflexivity].
Defined.

End CoerceFloat.

(** ** The parser returns *)

Section ParserFacts.
Context {RT : PyRuntime}.
Import Str PVTParser.

Lemma coerce_datetime_returns (value : string) :
  exists r, _coerce_datetime value = Returns r.
Proof.
  unfold _coerce_datetime, try_except.
  destruct (fromisoformat value) as [d|e] eqn:E; [by eexists|].
  apply fromisoformat_raises in E. subst e. by eexists.
Qed.

Lemma try_formats_returns (fmts : list string) (value : string) :
  exists r, try_formats fmts value = Returns r.
Proof.
  induction fmts as [|fmt fmts IH]; simpl.
  - apply coerce_datetime_returns.
  - unfold try_except.
    destruct (strptime (strip value) fmt) as [d|e] eqn:E; [by eexists|].
    apply strptime_raises in E. subst e. exact IH.
Qed.

Lemma parse_datetime_value_returns (value : option string) :
  exists r, _parse_datetime_value value = Returns r.
Proof.
  unfold _parse_datetime_value.
  destruct value as [v|]; [|by eexists].
  destruct (negb (truthy v)); [by eexists|].
  apply try_formats_returns.
Qed.

Lemma parse_datetime_parts_returns (date_value time_value : string) :
  exists r, _parse_datetime_parts date_value time_value = Returns r.
Proof.
  unfold _parse_datetime_parts.
  destruct (negb (truthy date_value) || negb (truthy time_value));
    [by eexists|].
  apply parse_datetime_value_returns.
Qed.

(** An empty date field gives no timestamp. *)
Lemma parse_datetime_parts_empty (time_value : string) :
  _parse_datetime_parts "" time_value = Returns None.
Proof. reflexivity. Qed.

Lemma finite_value_finite (c : outcome PyFloat.float) :
  finite_field (finite_value c).
Proof.
  unfold finite_field, finite_value. intros x.
  destruct c as [y|]; [|done].
  destruct (PyFloat.isfinite y) eqn:E; [|done]. by intros [= <-].
Qed.

Lemma coerce_float_returns (value : option string) :
  exists r, _coerce_float value = Returns r /\ finite_field r.
Proof.
  destruct value as [s|]; [|by exists None].
  rewrite coerce_float_value. eexists. split; [done|].
  apply finite_value_finite.
Qed.

Lemma float_field_returns (parts : list string) (i : nat) :
  exists r, float_field parts i = Returns r /\ finite_field r.
Proof.
  unfold float_field. destruct (parts !! i); [|by exists None].
  apply coerce_float_returns.
Qed.

(** What one turn of the row loop does to the list built so far: it
    appends [rs], which is empty or one reading carrying the timestamp of
    the row. *)
Lemma row_step_rows (line : string) :
  exists rs,
    (forall acc, row_step line acc = Returns (acc ++ rs))
    /\ (rs = []
        \/ exists r, rs = [r]
             /\ PiezometerReading.reading_time r = row_timestamp line
             /\ is_Some (row_timestamp line)
             /\ (2 <= length (split TAB line))%nat
             /\ finite_reading r).
Proof.
  unfold row_step, row_timestamp.
  destruct (negb (truthy (strip line))).
  { exists []. split; [intros acc; by rewrite app_nil_r|by left]. }
  destruct (split TAB line) as [|d [|t fields]] eqn:Eparts.
  { exists []. split; [intros acc; by rewrite app_nil_r|by left]. }
  { exists []. split; [intros acc; by rewrite app_nil_r|by left]. }
  destruct (parse_datetime_parts_returns d t) as [[dt|] Edt]; rewrite Edt.
  - destruct (float_field_returns (d :: t :: fields) 2) as (p & Ep & Fp).
    destruct (float_field_returns (d :: t :: fields) 3) as (q & Eq & Fq).
    destruct (float_field_returns (d :: t :: fields) 4) as (b & Eb & Fb).
    eexists. split.
    + intros acc. simpl. rewrite Ep. simpl. rewrite Eq. simpl. rewrite Eb.
      simpl. reflexivity.
    + right. eexists. split; [reflexivity|]. simpl.
      split; [done|]. split; [by eexists|]. split; [lia|done].
  - exists []. split; [intros acc; simpl; by rewrite app_nil_r|by left].
Qed.

Lemma row_step_readings (line : string) (acc : list PiezometerReading.t) :
  row_step line acc = Returns (acc ++ row_readings line).
Proof.
  destruct (row_step_rows line) as (rs & Hrs & _).
  unfold row_readings. by rewrite (Hrs []), Hrs.
Qed.

Lemma row_readings_cases (line : string) :
  row_readings line = []
  \/ exists r, row_readings line = [r]
       /\ PiezometerReading.reading_time r = row_timestamp line
       /\ is_Some (row_timestamp line)
       /\ (2 <= length (split TAB line))%nat
       /\ finite_reading r.
Proof.
  destruct (row_step_rows line) as (rs & Hrs & Hcases).
  unfold row_readings. by rewrite (Hrs []).
Qed.

Lemma for_each_rows (lines : list string) (acc : list PiezometerReading.t) :
  for_each lines row_step acc
  = Returns (acc ++ concat (map row_readings lines)).
Proof.
  revert acc. induction lines as [|line lines IH]; intros acc; simpl.
  - by rewrite app_nil_r.
  - rewrite row_step_readings. simpl. by rewrite IH, app_assoc.
Qed.

Lemma parse_metadata_line_returns (line file_path : string) :
  exists reading_time installation_depth,
    _parse_metadata_line line file_path = Returns {|
      PiezometerMetadata.investigation_point :=
        py_or (metadata_values line !! "measurepoint") id
          (Path_stem file_path);
      PiezometerMetadata.series_number :=
        metadata_values line !! "serienumber";
      PiezometerMetadata.reading_time := reading_time;
      PiezometerMetadata.installation_depth := installation_depth;
      PiezometerMetadata.input_filename := Some (Path_name file_path)
    |}
    /\ finite_field installation_depth.
Proof.
  unfold _parse_metadata_line.
  destruct (parse_datetime_value_returns
              (metadata_values line !! "readingtime")) as [rt Ert].
  destruct (coerce_float_returns
              (py_or (metadata_values line !! "installationdepthm") Some
                 (metadata_values line !! "installationdepth")))
    as (depth & Edepth & Fdepth).
  exists rt, depth. rewrite Ert. simpl. rewrite Edepth. done.
Qed.

(** [parse_text] returns: the metadata of the first non-blank line and the
    readings of the rows. *)
Lemma parse_text_returns (text file_path : string) :
  exists metadata,
    _parse_metadata_line (find_meta_line (lines_of text)) file_path
    = Returns metadata
    /\ parse_text text file_path = Returns {|
         ParsedPiezometer.metadata := metadata;
         ParsedPiezometer.readings := file_readings (lines_of text)
       |}.
Proof.
  destruct (parse_metadata_line_returns
              (find_meta_line (lines_of text)) file_path)
    as (rt & depth & Em & _).
  eexists. split; [exact Em|].
  unfold parse_text, file_readings. fold (lines_of text). rewrite Em. simpl.
  destruct (find_header 0 (lines_of text)) as [h|]; [|reflexivity].
  rewrite for_each_rows. reflexivity.
Qed.

End ParserFacts.

(** ** Where the elements of a row-by-row result come from *)

Section Provenance.
Context {A B : Type} (f : A -> list B).
Hypothesis f_short : forall x, (length (f x) <= 1)%nat.

(** The elements of [concat (map f l)] come, in order, from positions of
    [l] that strictly increase; [k] is the position of the head of [l] in
    a longer list. *)
Lemma concat_map_provenance (l : list A) (k : nat) :
  exists idxs : list nat,
    StronglySorted lt idxs
    /\ Forall (fun i => (k <= i)%nat) idxs
    /\ Forall2 (fun i r => (k <= i)%nat
                  /\ exists x, l !! (i - k)%nat = Some x /\ f x = [r])
         idxs (concat (map f l))
    /\ (forall j x, l !! j = Some x -> f x <> [] -> (k + j)%nat ∈ idxs).
Proof using f_short.
  revert k. induction l as [|x l IH]; intros k.
  - exists []. repeat split; try constructor. by intros j x.
  - destruct (IH (S k)) as (idxs & Hsorted & Hge & Hall & Hin).
    assert (Forall2 (fun i r => (k <= i)%nat
              /\ exists y, (x :: l) !! (i - k)%nat = Some y /\ f y = [r])
              idxs (concat (map f l))) as Hall'.
    { eapply Forall2_impl; [exact Hall|]. simpl.
      intros i r (Hi & y & Hy & Hr). split; [lia|]. exists y. split; [|done].
      replace (i - k)%nat with (S (i - S k)) by lia. done. }
    pose proof (f_short x) as Hlen.
    destruct (f x) as [|r [|r' rs]] eqn:Ex; [| |simpl in Hlen; lia].
    + exists idxs. split; [done|]. split.
      { eapply Forall_impl; [exact Hge|]. simpl. intros; lia. }
      split; [simpl; by rewrite Ex|].
      intros [|j] y; simpl.
      * intros [= <-]. by rewrite Ex.
      * intros Hy Hne. replace (k + S j)%nat with (S k + j)%nat by lia.
        by eapply Hin.
    + exists (k :: idxs). split.
      { constructor; [done|].
        eapply Forall_impl; [exact Hge|]. simpl. intros; lia. }
      split.
      { constructor; [lia|].
        eapply Forall_impl; [exact Hge|]. simpl. intros; lia. }
      split.
      { simpl. rewrite Ex. simpl. constructor; [|done].
        split; [lia|]. exists x. by rewrite Nat.sub_diag. }
      intros [|j] y; simpl.
      * intros _ _. rewrite Nat.add_0_r. apply list_elem_of_here.
      * intros Hy Hne. replace (k + S j)%nat with (S k + j)%nat by lia.
        apply list_elem_of_further. by eapply Hin.
Qed.

End Provenance.

(** ** The readings of a file *)

Section Rows.
Context {RT : PyRuntime}.
Import Str PVTParser.

Lemma row_readings_short (line : string) :
  (length (row_readings line) <= 1)%nat.
Proof.
  destruct (row_readings_cases line) as [->|(r & -> & _)]; simpl; lia.
Qed.

Lemma row_step_alone (line : string) (r : PiezometerReading.t) :
  row_readings line = [r] -> row_step line [] = Returns [r].
Proof. intros H. by rewrite row_step_readings, H. Qed.

(** The readings of a file come from rows at strictly increasing positions,
    and every row from the first data line on that yields a reading is
    among them. *)
Lemma file_readings_provenance (lines : list string) :
  exists idxs : list nat,
    StronglySorted lt idxs
    /\ Forall2 (fun i r => exists line,
                  lines !! i = Some line /\ row_readings line = [r])
         idxs (file_readings lines)
    /\ (forall h i line,
          find_header 0 lines = Some h ->
          (data_start_after lines h <= i)%nat ->
          lines !! i = Some line -> row_readings line <> [] -> i ∈ idxs).
Proof.
  unfold file_readings.
  destruct (find_header 0 lines) as [h|].
  - set (start := data_start_after lines h).
    destruct (concat_map_provenance row_readings row_readings_short
                (drop start lines) start)
      as (idxs & Hsorted & _ & Hall & Hin).
    exists idxs. split; [done|]. split.
    + eapply Forall2_impl; [exact Hall|]. simpl.
      intros i r (Hi & line & Hline & Hr). exists line. split; [|done].
      rewrite lookup_drop in Hline.
      by replace (start + (i - start))%nat with i in Hline by lia.
    + intros h' i line [= <-] Hi Hline Hne.
      replace i with (start + (i - start))%nat by lia.
      eapply Hin; [|exact Hne]. rewrite lookup_drop.
      by replace (start + (i - start))%nat with i by lia.
  - exists []. repeat split; try constructor. by intros h.
Qed.

(** C4.  For every decoded file content the parse returns: only the failure
    to read the file reaches the caller, with the error of the failed
    access; the file system is left as it was. *)
Theorem parse_raises_only_on_file_access (file_path : string) (w : World) :
  match files w file_path with
  | Returns text =>
      exists parsed,
        parse_text text file_path = Returns parsed
        /\ parse file_path w = (Returns [parsed], w)
  | Raises e => parse file_path w = (Raises e, w)
  end.
Proof.
  unfold parse, _parse_text_file.
  destruct (files w file_path) as [text|e]; [|reflexivity].
  destruct (parse_text_returns text file_path) as (m & _ & E).
  eexists. split; [exact E|]. by rewrite E.
Qed.

(** C5.  The readings of the result are in the order of their source rows:
    they come, one by one, from lines at strictly increasing positions of
    the file, and no row that yields a reading is passed over. *)
Theorem readings_keep_file_order (text file_path : string) :
  exists parsed,
    parse_text text file_path = Returns parsed
    /\ exists idxs : list nat,
         StronglySorted lt idxs
         /\ Forall2 (fun i r => exists line,
                       lines_of text !! i = Some line
                       /\ row_step line [] = Returns [r])
              idxs (ParsedPiezometer.readings parsed)
         /\ (forall h i line r,
               find_header 0 (lines_of text) = Some h ->
               (data_start_after (lines_of text) h <= i)%nat ->
               lines_of text !! i = Some line ->
               row_step line [] = Returns [r] -> i ∈ idxs).
Proof.
  destruct (parse_text_returns text file_path) as (m & _ & E).
  eexists. split; [exact E|]. simpl.
  destruct (file_readings_provenance (lines_of text))
    as (idxs & Hsorted & Hall & Hin).
  exists idxs. split; [done|]. split.
  - eapply Forall2_impl; [exact Hall|]. simpl.
    intros i r (line & Hline & Hr). exists line.
    split; [done|]. by apply row_step_alone.
  - intros h i line r Hh Hi Hline Hr. eapply Hin; eauto.
    rewrite row_step_readings in Hr. simpl in Hr.
    injection Hr as ->. done.
Qed.

(** C2.  Every reading of the result has a timestamp: each comes from a row
    with at least two tab-separated fields whose timestamp parses, and
    carries it; a row with fewer than two fields, or whose date and time do
    not parse, is the source of no reading. *)
Theorem readings_have_timestamps (text file_path : string) :
  exists parsed,
    parse_text text file_path = Returns parsed
    /\ Forall (fun r => is_Some (PiezometerReading.reading_time r))
         (ParsedPiezometer.readings parsed)
    /\ exists idxs : list nat,
         Forall2 (fun i r => exists line,
                    lines_of text !! i = Some line
                    /\ row_step line [] = Returns [r]
                    /\ PiezometerReading.reading_time r = row_timestamp line)
           idxs (ParsedPiezometer.readings parsed)
         /\ (forall i line,
               lines_of text !! i = Some line ->
               (length (split TAB line) < 2)%nat
               \/ row_timestamp line = None ->
               i ∉ idxs).
Proof.
  destruct (parse_text_returns text file_path) as (m & _ & E).
  eexists. split; [exact E|]. simpl.
  destruct (file_readings_provenance (lines_of text))
    as (idxs & Hsorted & Hall & Hin).
  assert (Forall2 (fun i r => exists line,
            lines_of text !! i = Some line
            /\ row_step line [] = Returns [r]
            /\ PiezometerReading.reading_time r = row_timestamp line
            /\ is_Some (row_timestamp line)
            /\ (2 <= length (split TAB line))%nat)
            idxs (file_readings (lines_of text))) as Hall'.
  { eapply Forall2_impl; [exact Hall|]. simpl.
    intros i r (line & Hline & Hr). exists line. split; [done|].
    split; [by apply row_step_alone|].
    destruct (row_readings_cases line)
      as [Hnil|(r' & Hr' & Htime & Hsome & Hlen & _)]; [congruence|].
    rewrite Hr in Hr'. injection Hr' as <-. done. }
  split; [|exists idxs; split].
  - clear -Hall'. induction Hall' as [|i r idxs rs (line & _ & _ & Ht & Hs & _)];
      constructor; [by rewrite Ht|done].
  - eapply Forall2_impl; [exact Hall'|]. simpl.
    intros i r (line & ? & ? & ? & _). by exists line.
  - intros i line Hline Hbad Hi.
    clear -Hall' Hline Hbad Hi.
    induction Hall' as [|j r idxs rs (line' & Hline' & _ & _ & Hs & Hlen) _ IH].
    + by apply elem_of_nil in Hi.
    + apply elem_of_cons in Hi as [->|Hi]; [|by apply IH].
      rewrite Hline in Hline'. injection Hline' as <-.
      destruct Hbad as [Hbad|Hbad]; [lia|].
      rewrite Hbad in Hs. by destruct Hs.
Qed.

End Rows.

(** ** The units row *)

Section UnitsRow.
Context {RT : PyRuntime}.
Import Str PVTParser.

Lemma split_not_nil (sep : ascii) (s : string) : split sep s <> [].
Proof.
  destruct s as [|c s]; simpl; [done|].
  destruct (eqc c sep); [done|]. by destruct (split sep s).
Qed.

(** A stripped string does not begin with white space. *)
Lemma strip_head (s : string) (c : ascii) (r : string) :
  strip s = String c r -> isspace c = false.
Proof.
  unfold strip, rstrip, lstrip.
  assert (forall t, lstrip_by isspace t = ""
            \/ exists a t', lstrip_by isspace t = String a t'
                 /\ isspace a = false) as Hl.
  { induction t as [|a t IH]; simpl; [by left|].
    destruct (isspace a) eqn:E; [done|]. right. by exists a, t. }
  destruct (Hl s) as [->|(a & t' & -> & Ha)]; [done|].
  rewrite rstrip_by_cons, Ha, andb_false_r. by intros [= <- _].
Qed.

(** The test [unit_line.startswith("\t")] is made on the stripped line and
    is never true. *)
Lemma stripped_line_never_starts_with_tab (s : string) :
  startswith (String TAB "") (strip s) = false.
Proof.
  destruct (strip s) as [|c r] eqn:E; [done|].
  apply strip_head in E.
  change (eqc TAB c && true = false). rewrite andb_true_r.
  apply eqc_false. intros <-. discriminate.
Qed.

(** A line that begins with a tab has an empty date field and yields no
    reading. *)
Lemma row_readings_leading_tab (s : string) :
  row_readings (String TAB s) = [].
Proof.
  unfold row_readings, row_step.
  destruct (negb (truthy (strip (String TAB s)))); [done|].
  change (split TAB (String TAB s)) with ("" :: split TAB s).
  destruct (split TAB s) as [|t rest] eqn:E; [by apply split_not_nil in E|].
  by rewrite parse_datetime_parts_empty.
Qed.

Lemma startswith_tab (s : string) :
  startswith (String TAB "") s = true -> exists r, s = String TAB r.
Proof.
  destruct s as [|c r]; [done|].
  change (eqc TAB c && true = true -> exists r0, String c r = String TAB r0).
  rewrite andb_true_r. intros <-%eqc_true. by exists r.
Qed.

(** C3.  When the line after the header is non-empty and contains a
    parenthesis or begins with a tab, it yields no reading: the readings of
    the file are those of the lines that follow it. *)
Theorem units_row_is_skipped (text file_path : string) (h : nat)
    (next : string) :
  find_header 0 (lines_of text) = Some h ->
  lines_of text !! (h + 1)%nat = Some next ->
  next <> "" ->
  contains "(" next = true \/ startswith (String TAB "") next = true ->
  exists parsed,
    parse_text text file_path = Returns parsed
    /\ for_each (drop (h + 2) (lines_of text)) row_step []
       = Returns (ParsedPiezometer.readings parsed).
Proof.
  intros Hh Hnext _ Hunits.
  destruct (parse_text_returns text file_path) as (m & _ & E).
  eexists. split; [exact E|]. simpl.
  rewrite for_each_rows. simpl. f_equal.
  unfold file_readings, data_start_after. rewrite Hh, Hnext.
  destruct (truthy (strip next)
            && (contains "(" (strip next)
                || startswith (String TAB "") (strip next))) eqn:Etest.
  { by replace (h + 1 + 1)%nat with (h + 2)%nat by lia. }
  rewrite (drop_S _ _ _ Hnext).
  replace (S (h + 1)) with (h + 2)%nat by lia. simpl.
  assert (row_readings next = []) as ->; [|done].
  destruct Hunits as [Hparen|Htab].
  - rewrite contains_strip, Hparen, andb_true_r in Etest by done.
    assert (contains "(" (strip next) = true) as Hc
      by (by rewrite contains_strip).
    destruct (strip next); [discriminate Hc|discriminate Etest].
  - apply startswith_tab in Htab as [r ->].
    apply row_readings_leading_tab.
Qed.

End UnitsRow.

Lemma units_row_is_skipped_witness :
  PVTParser.find_header 0 (lines_of sample_with_units) = Some 2%nat
  /\ lines_of sample_with_units !! 3%nat = Some units_row
  /\ units_row <> ""
  /\ Str.startswith (String TAB "") units_row = true
  /\ exists parsed,
       PVTParser.parse_text sample_with_units "BH-7.pvt" = Returns parsed
       /\ for_each (drop 4 (lines_of sample_with_units)) PVTParser.row_step []
          = Returns (ParsedPiezometer.readings parsed).
Proof.
  split; [vm_compute; reflexivity|]. split; [vm_compute; reflexivity|].
  split; [discriminate|]. split; [reflexivity|].
  apply (units_row_is_skipped sample_with_units "BH-7.pvt" 2 units_row).
  - vm_compute; reflexivity.
  - vm_compute; reflexivity.
  - discriminate.
  - right. reflexivity.
Defined.

(** ** The metadata line *)

Section Metadata.
Context {RT : PyRuntime}.
Import Str PVTParser.

(** What [values] holds under a key [K] was put there by a token whose key
    normalizes to [K], or was there before the loop. *)
Lemma metadata_fold_lookup (P : string -> Prop) (K : string)
    (parts : list string) (values : gmap string string) :
  (forall v, values !! K = Some v -> P v) ->
  (forall part key value,
     part ∈ parts -> split_once ":" part = Some (key, value) ->
     _normalize_key key = K -> P (strip value)) ->
  forall v, fold_left metadata_step parts values !! K = Some v -> P v.
Proof.
  revert values. induction parts as [|part parts IH]; intros values H0 Hparts.
  - exact H0.
  - simpl. apply IH.
    + unfold metadata_step.
      destruct (negb (contains ":" part)); [exact H0|].
      destruct (split_once ":" part) as [[key value]|] eqn:E; [|exact H0].
      intros v. rewrite lookup_insert. case_decide as Hk.
      * intros [= <-]. eapply Hparts; [apply list_elem_of_here|exact E|done].
      * apply H0.
    + intros part' key value Hin. apply Hparts. by apply list_elem_of_further.
Qed.

(** C8.  When no token of the metadata line has the normalized key
    [measurepoint], the investigation point is the stem of the file
    path. *)
Theorem investigation_point_falls_back (text file_path : string) :
  (forall part key value,
     token_of (find_meta_line (lines_of text)) part key value ->
     _normalize_key key <> "measurepoint") ->
  exists parsed,
    parse_text text file_path = Returns parsed
    /\ PiezometerMetadata.investigation_point
         (ParsedPiezometer.metadata parsed)
       = Path_stem file_path.
Proof.
  intros Hnone.
  destruct (parse_text_returns text file_path) as (m & Em & E).
  eexists. split; [exact E|]. simpl.
  destruct (parse_metadata_line_returns
              (find_meta_line (lines_of text)) file_path)
    as (rt & depth & Em' & _).
  rewrite Em in Em'. injection Em' as ->. simpl.
  destruct (metadata_values (find_meta_line (lines_of text))
              !! "measurepoint") as [v|] eqn:Ev; [|done].
  exfalso. revert Ev.
  apply (metadata_fold_lookup (fun _ => False) "measurepoint"); [done|].
  intros part key value Hin Hsplit Hkey.
  by apply (Hnone part key value).
Qed.

(** C9.  When the metadata line has tokens with the normalized key
    [measurepoint] and their values are empty once stripped, the
    investigation point is the stem of the file path, not the empty
    string. *)
Theorem investigation_point_empty_falls_back (text file_path : string) :
  (exists part key value,
     token_of (find_meta_line (lines_of text)) part key value
     /\ _normalize_key key = "measurepoint") ->
  (forall part key value,
     token_of (find_meta_line (lines_of text)) part key value ->
     _normalize_key key = "measurepoint" -> strip value = "") ->
  exists parsed,
    parse_text text file_path = Returns parsed
    /\ PiezometerMetadata.investigation_point
         (ParsedPiezometer.metadata parsed)
       = Path_stem file_path.
Proof.
  intros _ Hempty.
  destruct (parse_text_returns text file_path) as (m & Em & E).
  eexists. split; [exact E|]. simpl.
  destruct (parse_metadata_line_returns
              (find_meta_line (lines_of text)) file_path)
    as (rt & depth & Em' & _).
  rewrite Em in Em'. injection Em' as ->. simpl.
  destruct (metadata_values (find_meta_line (lines_of text))
              !! "measurepoint") as [v|] eqn:Ev; [|done].
  assert (v = "") as ->; [|done].
  revert Ev.
  apply (metadata_fold_lookup (fun v => v = "") "measurepoint"); [done|].
  intros part key value Hin Hsplit Hkey.
  by apply (Hempty part key value).
Qed.

End Metadata.

Lemma investigation_point_falls_back_witness :
  (forall part key value,
     token_of (PVTParser.find_meta_line (lines_of sample_no_point))
       part key value ->
     PVTParser._normalize_key key <> "measurepoint")
  /\ exists parsed,
       PVTParser.parse_text sample_no_point "/data/site/BH-7.pvt"
       = Returns parsed
       /\ PiezometerMetadata.investigation_point
            (ParsedPiezometer.metadata parsed)
          = "BH-7".
Proof.
  assert (forall part key value,
    token_of (PVTParser.find_meta_line (lines_of sample_no_point))
      part key value ->
    PVTParser._normalize_key key <> "measurepoint") as H.
  { intros part key value [Hin Hsplit].
    change (part ∈ ["SerieNumber: 42"; "InstallationDepth: 12"; "5"]) in Hin.
    apply elem_of_cons in Hin as [->|Hin];
      [injection Hsplit as <- <-; discriminate|].
    apply elem_of_cons in Hin as [->|Hin];
      [injection Hsplit as <- <-; discriminate|].
    apply elem_of_cons in Hin as [->|Hin]; [discriminate Hsplit|].
    by apply elem_of_nil in Hin. }
  split; [exact H|].
  change "BH-7" with (@Path_stem reference_runtime "/data/site/BH-7.pvt").
  apply (investigation_point_falls_back sample_no_point
           "/data/site/BH-7.pvt" H).
Defined.

Lemma investigation_point_empty_falls_back_witness :
  (exists part key value,
     token_of (PVTParser.find_meta_line (lines_of sample_empty_point))
       part key value
     /\ PVTParser._normalize_key key = "measurepoint")
  /\ (forall part key value,
        token_of (PVTParser.find_meta_line (lines_of sample_empty_point))
          part key value ->
        PVTParser._normalize_key key = "measurepoint" ->
        Str.strip value = "")
  /\ exists parsed,
       PVTParser.parse_text sample_empty_point "/data/site/BH-7.pvt"
       = Returns parsed
       /\ PiezometerMetadata.investigation_point
            (ParsedPiezometer.metadata parsed)
          = "BH-7".
Proof.
  assert (exists part key value,
    token_of (PVTParser.find_meta_line (lines_of sample_empty_point))
      part key value
    /\ PVTParser._normalize_key key = "measurepoint") as H1.
  { exists "MeasurePoint:", "MeasurePoint", "".
    split; [|reflexivity]. split; [|reflexivity].
    change ("MeasurePoint:" ∈ ["MeasurePoint:"; "SerieNumber: 42"]).
    apply list_elem_of_here. }
  assert (forall part key value,
    token_of (PVTParser.find_meta_line (lines_of sample_empty_point))
      part key value ->
    PVTParser._normalize_key key = "measurepoint" ->
    Str.strip value = "") as H2.
  { intros part key value [Hin Hsplit].
    change (part ∈ ["MeasurePoint:"; "SerieNumber: 42"]) in Hin.
    apply elem_of_cons in Hin as [->|Hin];
      [by injection Hsplit as <- <-|].
    apply elem_of_cons in Hin as [->|Hin];
      [injection Hsplit as <- <-; discriminate|].
    by apply elem_of_nil in Hin. }
  split; [exact H1|]. split; [exact H2|].
  change "BH-7" with (@Path_stem reference_runtime "/data/site/BH-7.pvt").
  apply (investigation_point_empty_falls_back sample_empty_point
           "/data/site/BH-7.pvt" H1 H2).
Defined.

(** ** Key spellings *)

Section KeySpelling.
Context {RT : PyRuntime}.
Import Str PVTParser.

Lemma contains_cons (ch c : ascii) (s : string) :
  contains ch (String c s) = eqc c ch || contains ch s.
Proof. reflexivity. Qed.

Lemma contains_app (c : ascii) (a b : string) :
  contains c (a +:+ b) = contains c a || contains c b.
Proof.
  induction a as [|x a IH]; [reflexivity|].
  rewrite append_cons, !contains_cons, IH. by rewrite orb_assoc.
Qed.

Lemma split_no_sep (sep : ascii) (s : string) :
  contains sep s = false -> split sep s = [s].
Proof.
  induction s as [|c s IH]; [done|].
  rewrite contains_cons. intros [Hc Hs]%orb_false_iff.
  simpl. by rewrite Hc, IH.
Qed.

Lemma split_app_sep (sep : ascii) (a b : string) :
  contains sep a = false ->
  split sep (a +:+ String sep b) = a :: split sep b.
Proof.
  induction a as [|c a IH].
  - intros _. rewrite append_nil_l. simpl. by rewrite eqc_refl.
  - rewrite contains_cons. intros [Hc Ha]%orb_false_iff.
    rewrite append_cons. simpl. by rewrite Hc, IH.
Qed.

Lemma split_join (sep : ascii) (parts : list string) :
  Forall (fun part => contains sep part = false) parts ->
  parts <> [] -> split sep (join sep parts) = parts.
Proof.
  induction 1 as [|part parts Hpart Hparts IH]; [done|]. intros _.
  destruct parts as [|part' parts].
  - by apply split_no_sep.
  - change (join sep (part :: part' :: parts))
      with (part +:+ String sep (join sep (part' :: parts))).
    by rewrite split_app_sep, IH.
Qed.

Lemma metadata_parts_join (parts : list string) :
  Forall (fun part => contains "," part = false) parts ->
  metadata_parts (join "," parts) = List.filter truthy (map strip parts).
Proof.
  intros H. unfold metadata_parts.
  destruct parts as [|part parts]; [reflexivity|].
  by rewrite split_join.
Qed.

Lemma lstrip_by_app (p : ascii -> bool) (a : string) (c : ascii)
    (b : string) :
  p c = false ->
  lstrip_by p (a +:+ String c b) = lstrip_by p a +:+ String c b.
Proof.
  intros Hc. induction a as [|x a IH].
  - rewrite append_nil_l. simpl. by rewrite Hc.
  - rewrite append_cons. simpl. by destruct (p x).
Qed.

Lemma rstrip_by_app (p : ascii -> bool) (a : string) (c : ascii)
    (b : string) :
  p c = false ->
  rstrip_by p (a +:+ String c b) = a +:+ String c (rstrip_by p b).
Proof.
  intros Hc. induction a as [|x a IH].
  - rewrite !append_nil_l, rstrip_by_cons, Hc. by rewrite andb_false_r.
  - rewrite !append_cons, rstrip_by_cons, IH.
    by destruct a.
Qed.

Lemma rstrip_by_idemp (p : ascii -> bool) (s : string) :
  rstrip_by p (rstrip_by p s) = rstrip_by p s.
Proof.
  induction s as [|c s IH]; [done|].
  rewrite rstrip_by_cons.
  destruct (is_empty (rstrip_by p s) && p c) eqn:E; [done|].
  rewrite rstrip_by_cons, IH, E. done.
Qed.

Lemma lstrip_rstrip_by (p : ascii -> bool) (s : string) :
  lstrip_by p (rstrip_by p s) = rstrip_by p (lstrip_by p s).
Proof.
  induction s as [|c s IH]; [done|].
  rewrite rstrip_by_cons. simpl lstrip_by at 2.
  destruct (p c) eqn:Hc.
  - rewrite andb_true_r, <- IH.
    destruct (rstrip_by p s) as [|x r] eqn:Er; [done|].
    simpl. by rewrite Hc.
  - rewrite andb_false_r, rstrip_by_cons, Hc, andb_false_r.
    simpl. by rewrite Hc.
Qed.

Lemma strip_rstrip (s : string) : strip (rstrip s) = strip s.
Proof.
  unfold strip, rstrip, lstrip.
  by rewrite lstrip_rstrip_by, rstrip_by_idemp.
Qed.

(** A token [key:value], stripped: white space goes from the head of the
    key and from the tail of the value. *)
Lemma strip_token (key value : string) :
  strip (key +:+ String ":" value)
  = lstrip key +:+ String ":" (rstrip value).
Proof.
  unfold strip, lstrip, rstrip.
  by rewrite lstrip_by_app, rstrip_by_app.
Qed.

Lemma split_once_app (sep : ascii) (a b : string) :
  contains sep a = false ->
  split_once sep (a +:+ String sep b) = Some (a, b).
Proof.
  induction a as [|c a IH].
  - intros _. rewrite append_nil_l. simpl. by rewrite eqc_refl.
  - rewrite contains_cons. intros [Hc Ha]%orb_false_iff.
    rewrite append_cons. simpl. by rewrite Hc, IH.
Qed.

Lemma space_is_not_alnum (c : ascii) :
  isspace c = true -> isalnum (lower_char c) = false.
Proof. destruct c as [[] [] [] [] [] [] [] []]; by vm_compute. Qed.

(** White space at the head of a key does not show in the normalized
    key. *)
Lemma normalize_key_lstrip (key : string) :
  _normalize_key (lstrip key) = _normalize_key key.
Proof.
  unfold _normalize_key, lstrip.
  induction key as [|c key IH]; [done|]. simpl.
  destruct (isspace c) eqn:Hc; [|done].
  by rewrite (space_is_not_alnum c Hc).
Qed.

Lemma contains_lstrip (c : ascii) (s : string) :
  contains c s = false -> contains c (lstrip s) = false.
Proof.
  unfold lstrip. induction s as [|a s IH]; [done|].
  rewrite contains_cons. intros [Ha Hs]%orb_false_iff. simpl.
  destruct (isspace a); [by apply IH|].
  by rewrite contains_cons, Ha, Hs.
Qed.

Lemma metadata_step_token (values : gmap string string)
    (key value : string) :
  contains ":" key = false ->
  metadata_step values (strip (key +:+ String ":" value))
  = <[_normalize_key key := strip value]> values.
Proof.
  intros Hkey. unfold metadata_step.
  rewrite strip_token, contains_app, contains_cons, eqc_refl, orb_true_r.
  simpl negb. cbv iota.
  rewrite split_once_app by (by apply contains_lstrip).
  by rewrite normalize_key_lstrip, strip_rstrip.
Qed.

Lemma truthy_strip_token (key value : string) :
  truthy (strip (key +:+ String ":" value)) = true.
Proof. rewrite strip_token. by destruct (lstrip key). Qed.

Lemma same_token_step (part1 part2 : string) :
  same_token part1 part2 ->
  truthy (strip part1) = truthy (strip part2)
  /\ forall values,
       metadata_step values (strip part1)
       = metadata_step values (strip part2).
Proof.
  intros [part _|key1 key2 value1 value2 _ Hk1 _ Hk2 _ _ Hkey Hvalue];
    [done|].
  split; [by rewrite !truthy_strip_token|].
  intros values. by rewrite !metadata_step_token, Hkey, Hvalue.
Qed.

Lemma same_token_no_comma (part1 part2 : string) :
  same_token part1 part2 ->
  contains "," part1 = false /\ contains "," part2 = false.
Proof.
  intros [part H|key1 key2 value1 value2 Hc1 _ Hc2 _ Hv1 Hv2 _ _]; [done|].
  rewrite !contains_app, !contains_cons, Hc1, Hc2, Hv1, Hv2. done.
Qed.

Lemma same_tokens_values (parts1 parts2 : list string) :
  Forall2 same_token parts1 parts2 ->
  metadata_values (join "," parts1) = metadata_values (join "," parts2).
Proof.
  intros H. unfold metadata_values.
  rewrite !metadata_parts_join.
  - generalize (∅ : gmap string string).
    induction H as [|part1 part2 parts1 parts2 Hpart _ IH]; [done|].
    intros values. simpl.
    destruct (same_token_step _ _ Hpart) as [Htruthy Hstep].
    rewrite <- Htruthy. destruct (truthy (strip part1)); [|apply IH].
    simpl. rewrite Hstep. apply IH.
  - clear -H. induction H as [|? ? ? ? Hpart]; constructor; [|done].
    by apply same_token_no_comma in Hpart as [_ ?].
  - clear -H. induction H as [|? ? ? ? Hpart]; constructor; [|done].
    by apply same_token_no_comma in Hpart as [? _].
Qed.

(** C6.  Key spellings that normalize identically resolve to the same
    field with the same value: two metadata lines whose tokens differ only
    in such spellings give the same metadata; [SerieNumber: 42] and
    [serie number:42] both give the series number [42]. *)
Theorem key_spellings_agree :
  (forall (parts1 parts2 : list string) (file_path : string),
     Forall2 same_token parts1 parts2 ->
     _parse_metadata_line (join "," parts1) file_path
     = _parse_metadata_line (join "," parts2) file_path)
  /\ (forall file_path, exists metadata1 metadata2,
        _parse_metadata_line "SerieNumber: 42" file_path = Returns metadata1
        /\ _parse_metadata_line "serie number:42" file_path
           = Returns metadata2
        /\ PiezometerMetadata.series_number metadata1 = Some "42"
        /\ PiezometerMetadata.series_number metadata2 = Some "42"
        /\ metadata1 = metadata2).
Proof.
  assert (forall (parts1 parts2 : list string) (file_path : string),
     Forall2 same_token parts1 parts2 ->
     _parse_metadata_line (join "," parts1) file_path
     = _parse_metadata_line (join "," parts2) file_path) as Hgeneral.
  { intros parts1 parts2 file_path H.
    unfold _parse_metadata_line. by rewrite (same_tokens_values _ _ H). }
  split; [exact Hgeneral|].
  intros file_path.
  destruct (parse_metadata_line_returns "SerieNumber: 42" file_path)
    as (rt & depth & E1 & _).
  assert (_parse_metadata_line "serie number:42" file_path
          = _parse_metadata_line "SerieNumber: 42" file_path) as E2.
  { apply (Hgeneral ["serie number:42"] ["SerieNumber: 42"]).
    constructor; [|constructor].
    apply (same_token_spelling "serie number" "SerieNumber" "42" " 42");
      reflexivity. }
  eexists _, _. split; [exact E1|]. split; [by rewrite E2|].
  split; [|done]. by vm_compute.
Qed.

End KeySpelling.

Lemma key_spellings_agree_witness :
  Forall2 same_token ["Measure Point: BH-1"; "serie_number:42"]
    ["measurepoint:BH-1 "; "SerieNumber: 42"]
  /\ PVTParser._parse_metadata_line "Measure Point: BH-1,serie_number:42"
       "BH-7.pvt"
     = PVTParser._parse_metadata_line "measurepoint:BH-1 ,SerieNumber: 42"
         "BH-7.pvt".
Proof.
  assert (Forall2 same_token ["Measure Point: BH-1"; "serie_number:42"]
            ["measurepoint:BH-1 "; "SerieNumber: 42"]) as H.
  { constructor; [|constructor; [|constructor]].
    - apply (same_token_spelling "Measure Point" "measurepoint"
               " BH-1" "BH-1 "); reflexivity.
    - apply (same_token_spelling "serie_number" "SerieNumber" "42" " 42");
        reflexivity. }
  split; [exact H|].
  apply (proj1 key_spellings_agree _ _ "BH-7.pvt" H).
Defined.

(** ** No float of a result is a NaN *)

Section FiniteResults.
Context {RT : PyRuntime}.
Import Str PVTParser.



End FiniteResults.

(** * Further properties of the parser *)

(** ** Rows *)

Section RowAnatomy.
Context {RT : PyRuntime}.
Import Str PVTParser.

Lemma float_field_value (parts : list string) (i : nat) :
  float_field parts i = Returns (column_value parts i).
Proof.
  unfold float_field, column_value.
  destruct (parts !! i); [apply coerce_float_value|done].
Qed.

(** X1.  A non-blank row whose date and time parse gives one reading: its
    timestamp, and for each of the columns 2, 3 and 4 the coerced field,
    null when the column is missing or unreadable.  Columns after the fifth
    are not looked at. *)
Theorem row_reading_fields (line date_value time_value : string)
    (fields : list string) (timestamp : datetime)
    (readings : list PiezometerReading.t) :
  truthy (strip line) = true ->
  split TAB line = date_value :: time_value :: fields ->
  _parse_datetime_parts date_value time_value = Returns (Some timestamp) ->
  row_step line readings = Returns (readings ++ [ {|
    PiezometerReading.reading_time := Some timestamp;
    PiezometerReading.pressure_mh2o := column_value fields 0;
    PiezometerReading.temperature_c := column_value fields 1;
    PiezometerReading.battery_pct := column_value fields 2
  |} ]).
Proof.
  intros Hline Hparts Htime. unfold row_step.
  rewrite Hline, Hparts, Htime. simpl.
  rewrite !float_field_value. reflexivity.
Qed.

(** X2.  A row is kept exactly when it is not blank and its timestamp parses:
    no numeric field, readable or not, decides whether a row is kept. *)
Theorem row_kept_iff_timestamp (line : string) :
  row_readings line <> []
  <-> truthy (strip line) = true /\ is_Some (row_timestamp line).
Proof.
  unfold row_readings, row_timestamp, row_step.
  destruct (truthy (strip line)); simpl; [|split; [done|by intros [? _]]].
  destruct (split TAB line) as [|d [|t fields]] eqn:Eparts;
    [split; [done|by intros [_ [? ?]]]..|].
  destruct (parse_datetime_parts_returns d t) as [[ts|] Ets]; rewrite Ets.
  - simpl. rewrite !float_field_value. simpl.
    split; [by eauto|done].
  - simpl. split; [done|by intros [_ [? ?]]].
Qed.

(** X3.  A row whose date field or time field is empty is dropped. *)
Theorem row_with_empty_date_or_time (line date_value time_value : string)
    (fields : list string) (readings : list PiezometerReading.t) :
  split TAB line = date_value :: time_value :: fields ->
  date_value = "" \/ time_value = "" ->
  row_step line readings = Returns readings.
Proof.
  intros Hparts Hempty. unfold row_step. rewrite Hparts.
  destruct (negb (truthy (strip line))); [done|].
  assert (_parse_datetime_parts date_value time_value = Returns None) as ->;
    [|done].
  unfold _parse_datetime_parts.
  destruct Hempty as [-> | ->]; [done|]. by rewrite orb_true_r.
Qed.

End RowAnatomy.

Lemma row_reading_fields_witness :
  Str.truthy (Str.strip two_field_row) = true
  /\ Str.split TAB two_field_row = ["2023-05-01"; "10:15"]
  /\ PVTParser.row_step two_field_row [] = Returns [ {|
       PiezometerReading.reading_time :=
         Some (Reference.make_datetime (2023, 5, 1) (10, 15, 0));
       PiezometerReading.pressure_mh2o := None;
       PiezometerReading.temperature_c := None;
       PiezometerReading.battery_pct := None
     |} ].
Proof.
  split; [reflexivity|]. split; [reflexivity|].
  apply (row_reading_fields two_field_row "2023-05-01" "10:15" []
           (Reference.make_datetime (2023, 5, 1) (10, 15, 0)) []);
    reflexivity.
Defined.

Lemma row_with_empty_date_or_time_witness :
  Str.split TAB row_without_time = ["2023-05-01"; ""; "12,3"]
  /\ PVTParser.row_step row_without_time [] = Returns [].
Proof.
  split; [reflexivity|].
  apply (row_with_empty_date_or_time row_without_time "2023-05-01" ""
           ["12,3"] []); [reflexivity|by right].
Defined.

(** ** The header line and the units row *)

Section Header.
Context {RT : PyRuntime}.
Import Str PVTParser.

Lemma find_header_cons (k : nat) (line : string) (lines : list string) :
  find_header k (line :: lines)
  = if is_header line then Some k else find_header (S k) lines.
Proof. reflexivity. Qed.

Lemma find_header_from (k : nat) (lines : list string) (h : nat) :
  find_header k lines = Some h
  <-> exists j, h = (k + j)%nat
        /\ (exists line, lines !! j = Some line /\ is_header line = true)
        /\ forall i line, (i < j)%nat -> lines !! i = Some line ->
             is_header line = false.
Proof.
  revert k. induction lines as [|line lines IH]; intros k.
  - split; [done|]. by intros (j & _ & (l & Hl & _) & _).
  - rewrite find_header_cons. destruct (is_header line) eqn:Eline.
    + split.
      * intros [= <-]. exists 0%nat. split; [lia|]. split; [by exists line|].
        intros i l Hi. lia.
      * intros (j & -> & _ & Hbefore). destruct j as [|j]; [f_equal; lia|].
        specialize (Hbefore 0%nat line ltac:(lia) eq_refl). congruence.
    + rewrite IH. split.
      * intros (j & -> & Hj & Hbefore). exists (S j). split; [lia|].
        split; [done|]. intros [|i] l Hi; simpl; [by intros [= <-]|].
        apply Hbefore. lia.
      * intros (j & -> & (l & Hl & Hheader) & Hbefore).
        destruct j as [|j]; [simpl in Hl; congruence|].
        exists j. split; [lia|]. split; [by exists l|].
        intros i l' Hi Hl'. apply (Hbefore (S i)); [lia|done].
Qed.

(** X4.  The header is the first line that, stripped and lowercased, begins with
    [date]: [header_index] is its position, and no earlier line reads as a
    header. *)
Theorem header_is_first_date_line (lines : list string) (h : nat) :
  find_header 0 lines = Some h
  <-> (exists line, lines !! h = Some line /\ is_header line = true)
      /\ forall i line, (i < h)%nat -> lines !! i = Some line ->
           is_header line = false.
Proof.
  rewrite find_header_from. split.
  - intros (j & -> & Hj & Hbefore). done.
  - intros [Hh Hbefore]. by exists h.
Qed.

Lemma find_header_none (k : nat) (lines : list string) :
  find_header k lines = None
  <-> Forall (fun line => is_header line = false) lines.
Proof.
  revert k. induction lines as [|line lines IH]; intros k.
  - split; [constructor|done].
  - rewrite find_header_cons. destruct (is_header line) eqn:Eline.
    + split; [done|]. intros H. apply Forall_cons in H as [? _]. congruence.
    + rewrite IH. split; [by constructor|]. by intros [_ ?]%Forall_cons.
Qed.

(** X5.  A file with no header line has its metadata parsed and no reading. *)
Theorem no_header_no_readings (text file_path : string) :
  Forall (fun line => is_header line = false) (lines_of text) ->
  exists metadata,
    _parse_metadata_line (find_meta_line (lines_of text)) file_path
    = Returns metadata
    /\ parse_text text file_path = Returns {|
         ParsedPiezometer.metadata := metadata;
         ParsedPiezometer.readings := []
       |}.
Proof.
  intros Hnone. apply (find_header_none 0) in Hnone.
  destruct (parse_text_returns text file_path) as (m & Em & E).
  exists m. split; [done|]. rewrite E. unfold file_readings.
  by rewrite Hnone.
Qed.

(** X6.  The line after the header is taken for a units row exactly when it
    contains a parenthesis: the other test of the source, for a leading
    tab, is made on the stripped line and decides nothing. *)
Theorem units_row_needs_parenthesis (lines : list string) (h : nat) :
  data_start_after lines h
  = match lines !! (h + 1)%nat with
    | Some next => if contains "(" next then (h + 2)%nat else (h + 1)%nat
    | None => (h + 1)%nat
    end.
Proof.
  unfold data_start_after.
  destruct (lines !! (h + 1)%nat) as [next|]; [|done].
  rewrite stripped_line_never_starts_with_tab, orb_false_r.
  rewrite contains_strip by done.
  destruct (contains "(" next) eqn:Hparen.
  - assert (contains "(" (strip next) = true) as Hc
      by (by rewrite contains_strip).
    destruct (strip next); [discriminate Hc|]. simpl. lia.
  - by rewrite andb_false_r.
Qed.


End Header.

Lemma no_header_no_readings_witness :
  Forall (fun line => is_header line = false) (lines_of sample_no_header)
  /\ exists metadata,
       PVTParser._parse_metadata_line
         (PVTParser.find_meta_line (lines_of sample_no_header)) "BH-7.pvt"
       = Returns metadata
       /\ PVTParser.parse_text sample_no_header "BH-7.pvt" = Returns {|
            ParsedPiezometer.metadata := metadata;
            ParsedPiezometer.readings := []
          |}.
Proof.
  assert (Forall (fun line => is_header line = false)
            (lines_of sample_no_header)) as H.
  { change (lines_of sample_no_header)
      with ["MeasurePoint: BH-1"; "2023-05-01" +:+ tab +:+ "10:05"].
    repeat constructor. }
  split; [exact H|].
  apply (no_header_no_readings sample_no_header "BH-7.pvt" H).
Defined.


(** ** Datetime coercion *)

Section Datetime.
Context {RT : PyRuntime}.
Import Str PVTParser.

Lemma coerce_datetime_value (value : string) :
  _coerce_datetime value = Returns (parsed_datetime (fromisoformat value)).
Proof.
  unfold _coerce_datetime, try_except, parsed_datetime.
  destruct (fromisoformat value) as [d|e] eqn:E; [done|].
  apply fromisoformat_raises in E. by subst e.
Qed.

Lemma try_formats_value (fmts : list string) (value : string) :
  try_formats fmts value
  = Returns (first_some
      (map (fun fmt => parsed_datetime (strptime (strip value) fmt)) fmts
       ++ [parsed_datetime (fromisoformat value)])).
Proof.
  induction fmts as [|fmt fmts IH]; simpl.
  - rewrite coerce_datetime_value. by destruct (fromisoformat value).
  - unfold try_except.
    destruct (strptime (strip value) fmt) as [d|e] eqn:E; [done|].
    apply strptime_raises in E. subst e. exact IH.
Qed.

(** X8.  The datetime coercion never raises.  Null and the empty string give
    null; any other string is tried, stripped, against [%Y-%m-%d %H:%M],
    then against [%Y-%m-%d %H:%M:%S], then, as it stands, as an ISO
    format: the first that reads it gives the result, and null is the
    result when none does. *)
Theorem datetime_formats_in_order (value : option string) :
  _parse_datetime_value value
  = Returns
      match value with
      | None => None
      | Some v =>
          if truthy v then
            first_some [
              parsed_datetime (strptime (strip v) "%Y-%m-%d %H:%M");
              parsed_datetime (strptime (strip v) "%Y-%m-%d %H:%M:%S");
              parsed_datetime (fromisoformat v) ]
          else None
      end.
Proof.
  unfold _parse_datetime_value. destruct value as [v|]; [|done].
  destruct (truthy v); [|done]. simpl negb. cbv iota.
  exact (try_formats_value ["%Y-%m-%d %H:%M"; "%Y-%m-%d %H:%M:%S"] v).
Qed.

End Datetime.

(** ** More on the metadata line *)

Section MetadataFields.
Context {RT : PyRuntime}.
Import Str PVTParser.

Lemma coerce_float_optional (value : option string) :
  _coerce_float value = Returns (optional_float value).
Proof. destruct value as [s|]; [apply coerce_float_value|done]. Qed.

(** The metadata of a line, field by field. *)
Lemma parse_metadata_line_fields (line file_path : string) :
  _parse_metadata_line line file_path = Returns {|
    PiezometerMetadata.investigation_point :=
      py_or (metadata_values line !! "measurepoint") id
        (Path_stem file_path);
    PiezometerMetadata.series_number := metadata_values line !! "serienumber";
    PiezometerMetadata.reading_time :=
      returned
        (_parse_datetime_value (metadata_values line !! "readingtime")) None;
    PiezometerMetadata.installation_depth :=
      optional_float
        (py_or (metadata_values line !! "installationdepthm") Some
           (metadata_values line !! "installationdepth"));
    PiezometerMetadata.input_filename := Some (Path_name file_path)
  |}.
Proof.
  unfold _parse_metadata_line.
  destruct (parse_datetime_value_returns
              (metadata_values line !! "readingtime")) as [r ->].
  simpl. by rewrite coerce_float_optional.
Qed.

(** X9.  The installation depth comes from the key [installationdepthm] when
    that key has a non-empty value, whatever [installationdepth] holds; an
    absent or empty [installationdepthm] leaves it to
    [installationdepth]. *)
Theorem installation_depth_key_priority (line file_path : string) :
  exists metadata,
    _parse_metadata_line line file_path = Returns metadata
    /\ (forall v, metadata_values line !! "installationdepthm" = Some v ->
          v <> "" ->
          PiezometerMetadata.installation_depth metadata
          = finite_value (PyFloat.py_float (clean_number v)))
    /\ (metadata_values line !! "installationdepthm" = None
        \/ metadata_values line !! "installationdepthm" = Some "" ->
        PiezometerMetadata.installation_depth metadata
        = optional_float (metadata_values line !! "installationdepth")).
Proof.
  eexists. split; [apply parse_metadata_line_fields|]. simpl. split.
  - intros v -> Hv. by destruct v.
  - by intros [-> | ->].
Qed.

(** X10.  Of several tokens whose keys normalize alike, the last one gives the
    value: a token put at the end of a line is what its key then reads. *)
Theorem metadata_last_token_wins (parts : list string) (key value : string) :
  Forall (fun part => contains "," part = false) parts ->
  contains "," key = false -> contains ":" key = false ->
  contains "," value = false ->
  metadata_values (join "," (parts ++ [key +:+ String ":" value]))
    !! _normalize_key key
  = Some (strip value).
Proof.
  intros Hparts Hkey Hcolon Hvalue. unfold metadata_values.
  rewrite metadata_parts_join.
  - rewrite map_app, List.filter_app, fold_left_app. simpl.
    rewrite truthy_strip_token. simpl.
    rewrite metadata_step_token by done. apply lookup_insert_eq.
  - apply Forall_app. split; [done|]. constructor; [|done].
    by rewrite contains_app, contains_cons, Hkey, Hvalue.
Qed.

Lemma split_fields_no_sep (sep : ascii) (s : string) :
  Forall (fun field => contains sep field = false) (split sep s).
Proof.
  induction s as [|c s IH]; simpl; [by repeat constructor|].
  destruct (eqc c sep) eqn:Ec; [by constructor|].
  destruct (split sep s) as [|field fields]; [by repeat constructor; rewrite contains_cons, Ec|].
  apply Forall_cons in IH as [Hfield Hfields].
  constructor; [|done]. by rewrite contains_cons, Ec.
Qed.

Lemma split_once_value (sep c : ascii) (s key value : string) :
  split_once sep s = Some (key, value) ->
  contains c s = false -> contains c value = false.
Proof.
  revert key. induction s as [|a s IH]; intros key; simpl; [done|].
  intros Hsplit [Ha Hs]%orb_false_iff.
  destruct (eqc a sep); [by injection Hsplit as _ <-|].
  destruct (split_once sep s) as [[k v]|]; [|done].
  injection Hsplit as _ <-. by eapply IH.
Qed.

Lemma lstrip_by_idemp (p : ascii -> bool) (s : string) :
  lstrip_by p (lstrip_by p s) = lstrip_by p s.
Proof.
  induction s as [|c s IH]; [done|]. simpl.
  destruct (p c) eqn:Hc; [done|]. simpl. by rewrite Hc.
Qed.

Lemma strip_idemp (s : string) : strip (strip s) = strip s.
Proof.
  unfold strip, rstrip, lstrip.
  by rewrite lstrip_rstrip_by, lstrip_by_idemp, rstrip_by_idemp.
Qed.

(** X11.  No value of the metadata holds a comma or surrounding white space: the
    line is cut at every comma before the tokens are read, so that a
    decimal comma in a value does not survive. *)
Theorem metadata_values_hold_no_comma (line key value : string) :
  metadata_values line !! key = Some value ->
  contains "," value = false /\ strip value = value.
Proof.
  unfold metadata_values.
  apply (metadata_fold_lookup
           (fun v => contains "," v = false /\ strip v = v) key);
    [done|].
  intros part k v Hin Hsplit _.
  split; [|apply strip_idemp].
  rewrite contains_strip by done.
  apply (split_once_value ":" "," part k v Hsplit).
  unfold metadata_parts in Hin.
  apply list_elem_of_In, List.filter_In in Hin as [Hin _].
  apply List.in_map_iff in Hin as (field & <- & Hfield).
  rewrite contains_strip by done.
  pose proof (split_fields_no_sep "," line) as Hall.
  rewrite List.Forall_forall in Hall. by apply Hall.
Qed.

End MetadataFields.

Lemma metadata_last_token_wins_witness :
  PVTParser.metadata_values "MeasurePoint: BH-1, Measure Point: BH-2"
    !! "measurepoint"
  = Some "BH-2".
Proof.
  apply (metadata_last_token_wins
           ["MeasurePoint: BH-1"] " Measure Point" " BH-2").
  - by repeat constructor.
  - reflexivity.
  - reflexivity.
  - reflexivity.
Defined.

Lemma metadata_values_hold_no_comma_witness :
  Str.contains "," "12" = false /\ Str.strip "12" = "12".
Proof.
  apply (metadata_values_hold_no_comma
           "MeasurePoint: BH-1, InstallationDepth: 12,5"
           "installationdepth" "12").
  vm_compute. reflexivity.
Defined.

(** ** Keys, numbers and lines *)

Section Normalisation.
Context {RT : PyRuntime}.
Import Str PVTParser.

Lemma lower_char_idemp (c : ascii) : lower_char (lower_char c) = lower_char c.
Proof. by destruct c as [[] [] [] [] [] [] [] []]. Qed.

Lemma lower_char_not_alnum (c : ascii) :
  isalnum c = false -> isalnum (lower_char c) = false.
Proof. by destruct c as [[] [] [] [] [] [] [] []]. Qed.

Lemma normalize_key_cons (c : ascii) (key : string) :
  _normalize_key (String c key)
  = if isalnum (lower_char c) then String (lower_char c) (_normalize_key key)
    else _normalize_key key.
Proof. reflexivity. Qed.

Lemma normalize_key_app (a b : string) :
  _normalize_key (a +:+ b) = _normalize_key a +:+ _normalize_key b.
Proof.
  induction a as [|c a IH]; [by rewrite !append_nil_l|].
  rewrite append_cons, !normalize_key_cons, IH.
  destruct (isalnum (lower_char c)); [by rewrite append_cons|done].
Qed.

(** X12.  A normalized key is its own normal form. *)
Theorem normalize_key_idempotent (key : string) :
  _normalize_key (_normalize_key key) = _normalize_key key.
Proof.
  induction key as [|c key IH]; [done|].
  rewrite normalize_key_cons.
  destruct (isalnum (lower_char c)) eqn:Hc; [|exact IH].
  by rewrite normalize_key_cons, lower_char_idemp, Hc, IH.
Qed.

(** X13.  For a key of code points below 256, key normalization ignores
    case, and any character that is not a letter or a digit, wherever it
    stands in the key.  (Beyond that range [str.lower] depends on the
    neighbours of a character, and the second part fails: see [lower].) *)
Theorem normalize_key_ignores_case_and_separators
    (before after : string) (c : ascii) :
  _normalize_key (lower before) = _normalize_key before
  /\ (isalnum c = false ->
      _normalize_key (before +:+ String c after)
      = _normalize_key (before +:+ after)).
Proof.
  split.
  - induction before as [|a before IH]; [done|].
    change (lower (String a before)) with (String (lower_char a) (lower before)).
    by rewrite !normalize_key_cons, lower_char_idemp, IH.
  - intros Hc. rewrite !normalize_key_app, normalize_key_cons.
    by rewrite (lower_char_not_alnum c Hc).
Qed.

(** X14.  White space around a number string does not change what it reads as,
    and a string of white space alone reads as null. *)
Theorem coerce_float_ignores_surrounding_space (value : string) :
  _coerce_float (Some (strip value)) = _coerce_float (Some value)
  /\ (strip value = "" -> _coerce_float (Some value) = Returns None).
Proof.
  split.
  - unfold _coerce_float, clean_number. by rewrite strip_idemp.
  - intros Hblank. unfold _coerce_float, clean_number. rewrite Hblank.
    vm_compute. reflexivity.
Qed.

Lemma splitlines_from_no_break (c : ascii) (after_cr : bool) (text : string) :
  is_linebreak c = true ->
  Forall (fun line => contains c line = false) (splitlines_from after_cr text).
Proof.
  intros Hc. revert after_cr.
  induction text as [|a text IH]; intros after_cr; simpl; [constructor|].
  destruct (after_cr && _); [apply IH|].
  destruct (is_linebreak a) eqn:Ha.
  - constructor; [done|apply IH].
  - assert (eqc a c = false) as Hac.
    { destruct (eqc a c) eqn:E; [|done].
      apply eqc_true in E. congruence. }
    specialize (IH false).
    destruct (splitlines_from false text) as [|line lines].
    + repeat constructor. by rewrite contains_cons, Hac.
    + apply Forall_cons in IH as [Hline Hlines].
      constructor; [|done]. by rewrite contains_cons, Hac.
Qed.

Lemma rstrip_by_absent (c : ascii) (s : string) :
  contains c s = false -> rstrip_by (eqc c) s = s.
Proof.
  induction s as [|a s IH]; [done|].
  rewrite contains_cons. intros [Ha Hs]%orb_false_iff.
  rewrite rstrip_by_cons, (IH Hs), (eqc_sym c a), Ha.
  by rewrite andb_false_r.
Qed.

(** X15.  The lines of a text hold no line-break character, so that removing
    trailing newlines from each of them, as the parser does, changes
    nothing. *)
Theorem lines_hold_no_line_break (text : string) :
  Forall (fun line => forall c, is_linebreak c = true ->
                                contains c line = false)
    (splitlines text)
  /\ lines_of text = splitlines text.
Proof.
  assert (Forall (fun line => forall c, is_linebreak c = true ->
                                        contains c line = false)
            (splitlines text)) as Hall.
  { apply Forall_forall. intros line Hin c Hc.
    pose proof (splitlines_from_no_break c false text Hc) as H.
    rewrite Forall_forall in H. by apply H. }
  split; [done|].
  unfold lines_of. induction Hall as [|line lines Hline _ IH]; [done|].
  simpl. f_equal; [|exact IH].
  apply rstrip_by_absent, Hline. reflexivity.
Qed.

End Normalisation.

(** ** The metadata line of a file *)

Section FirstLine.
Context {RT : PyRuntime}.
Import Str PVTParser.

Lemma truthy_nonempty (s : string) : s <> "" -> truthy s = true.
Proof. by destruct s. Qed.

Lemma find_meta_line_first (blanks : list string) (line : string)
    (rest : list string) :
  Forall (fun blank => strip blank = "") blanks ->
  strip line <> "" ->
  find_meta_line (blanks ++ line :: rest) = strip line.
Proof.
  intros Hblanks Hline.
  induction Hblanks as [|blank blanks Hblank _ IH]; simpl.
  - by rewrite (truthy_nonempty _ Hline).
  - by rewrite Hblank.
Qed.

Lemma find_meta_line_blank (lines : list string) :
  Forall (fun blank => strip blank = "") lines -> find_meta_line lines = "".
Proof.
  induction 1 as [|blank blanks Hblank _ IH]; simpl; [done|].
  by rewrite Hblank.
Qed.

(** X16.  The metadata of a file are those of its first line that is not blank,
    stripped, whatever that line is and whatever follows it. *)
Theorem metadata_from_first_nonblank_line
    (text file_path : string) (blanks : list string) (line : string)
    (rest : list string) :
  lines_of text = blanks ++ line :: rest ->
  Forall (fun blank => strip blank = "") blanks ->
  strip line <> "" ->
  exists parsed,
    parse_text text file_path = Returns parsed
    /\ _parse_metadata_line (strip line) file_path
       = Returns (ParsedPiezometer.metadata parsed).
Proof.
  intros Hlines Hblanks Hline.
  destruct (parse_text_returns text file_path) as (m & Em & E).
  eexists. split; [exact E|]. simpl.
  by rewrite Hlines, find_meta_line_first in Em.
Qed.

(** X17.  A file of blank lines only, the empty file among them, parses: the
    point is named after the file, the other metadata are null, and there
    is no reading. *)
Theorem blank_file_gives_fallback_metadata (text file_path : string) :
  Forall (fun line => strip line = "") (lines_of text) ->
  parse_text text file_path = Returns {|
    ParsedPiezometer.metadata := {|
      PiezometerMetadata.investigation_point := Path_stem file_path;
      PiezometerMetadata.series_number := None;
      PiezometerMetadata.reading_time := None;
      PiezometerMetadata.installation_depth := None;
      PiezometerMetadata.input_filename := Some (Path_name file_path)
    |};
    ParsedPiezometer.readings := []
  |}.
Proof.
  intros Hblank.
  destruct (parse_text_returns text file_path) as (m & Em & E).
  rewrite E. rewrite (find_meta_line_blank _ Hblank) in Em.
  rewrite parse_metadata_line_fields in Em. injection Em as <-.
  f_equal. unfold file_readings.
  assert (find_header 0 (lines_of text) = None) as ->; [|done].
  apply find_header_none.
  eapply Forall_impl; [exact Hblank|].
  intros line Hline. unfold is_header. by rewrite Hline.
Qed.

End FirstLine.

Lemma metadata_from_first_nonblank_line_witness :
  exists parsed,
    PVTParser.parse_text sample_with_units "BH-7.pvt" = Returns parsed
    /\ PVTParser._parse_metadata_line
         (Str.strip (default "" (lines_of sample_with_units !! 0%nat)))
         "BH-7.pvt"
       = Returns (ParsedPiezometer.metadata parsed).
Proof.
  apply (metadata_from_first_nonblank_line sample_with_units "BH-7.pvt" []
           (default "" (lines_of sample_with_units !! 0%nat))
           (drop 1 (lines_of sample_with_units))).
  - vm_compute. reflexivity.
  - constructor.
  - vm_compute. discriminate.
Defined.

Lemma blank_file_gives_fallback_metadata_witness :
  PVTParser.parse_text sample_blank "BH-7.pvt" = Returns {|
    ParsedPiezometer.metadata := {|
      PiezometerMetadata.investigation_point := Path_stem "BH-7.pvt";
      PiezometerMetadata.series_number := None;
      PiezometerMetadata.reading_time := None;
      PiezometerMetadata.installation_depth := None;
      PiezometerMetadata.input_filename := Some (Path_name "BH-7.pvt")
    |};
    ParsedPiezometer.readings := []
  |}.
Proof.
  apply (blank_file_gives_fallback_metadata sample_blank "BH-7.pvt").
  vm_compute. repeat constructor.
Defined.

(** ** What a number field can hold *)

Section FiniteNumbers.
Context {RT : PyRuntime}.
Import Str PVTParser.

(** X18.  The float coercion never raises, and what it gives is null or a finite
    float: an infinity, a NaN, an overflowing literal and text that is no
    number all read as null. *)
Theorem coerce_float_gives_finite_or_null (value : option string) :
  (exists r, _coerce_float value = Returns r /\ finite_field r)
  /\ _coerce_float (Some "inf") = Returns None
  /\ _coerce_float (Some "-Infinity") = Returns None
  /\ _coerce_float (Some "nan") = Returns None
  /\ _coerce_float (Some "1e999") = Returns None
  /\ _coerce_float (Some "n/a") = Returns None.
Proof.
  split; [apply coerce_float_returns|].
  split; [vm_compute; reflexivity|].
  split; [vm_compute; reflexivity|].
  split; [vm_compute; reflexivity|].
  split; [vm_compute; reflexivity|].
  vm_compute; reflexivity.
Qed.

End FiniteNumbers.

Lemma installation_depth_key_priority_witness :
  exists metadata,
    PVTParser._parse_metadata_line
      "Installation Depth (m): 7.5, InstallationDepth: 3" "BH-7.pvt"
    = Returns metadata
    /\ PiezometerMetadata.installation_depth metadata
       = finite_value (PyFloat.py_float (PVTParser.clean_number "7.5")).
Proof.
  destruct (installation_depth_key_priority
              "Installation Depth (m): 7.5, InstallationDepth: 3" "BH-7.pvt")
    as (metadata & E & Hm & _).
  exists metadata. split; [exact E|].
  apply Hm; [vm_compute; reflexivity|discriminate].
Defined.

Lemma normalize_key_ignores_case_and_separators_witness :
  PVTParser._normalize_key "Serie_Number"
  = PVTParser._normalize_key "SerieNumber".
Proof.
  apply (proj2 (normalize_key_ignores_case_and_separators
                  "Serie" "Number" "_")).
  reflexivity.
Defined.

Lemma coerce_float_ignores_surrounding_space_witness :
  PVTParser._coerce_float (Some "   ") = Returns None.
Proof.
  apply (proj2 (coerce_float_ignores_surrounding_space "   ")).
  reflexivity.
Defined.

(** * The parser on the object store *)

Section StoreFacts.
Context {RT : PyRuntime}.
Import Str Store Py.

Lemma machine_eta (m : Machine) :
  {| world := world m; heap := heap m |} = m.
Proof. by destruct m. Qed.

Lemma bind_returns {A B : Type} (c : M A) (k : A -> M B) (m m' : Machine)
    (a : A) :
  c m = (Returns a, m') -> bind c k m = k a m'.
Proof. intros H. unfold bind. by rewrite H. Qed.

Lemma bind_lift {A B : Type} (c : outcome A) (k : A -> M B) (m : Machine)
    (a : A) :
  c = Returns a -> bind (lift c) k m = k a m.
Proof. by intros ->. Qed.

Lemma fresh_heap (m : Machine) : heap m !! fresh (dom (heap m)) = None.
Proof. apply not_elem_of_dom, is_fresh. Qed.

Lemma dict_get_value (d : loc) (key : string) (m : Machine)
    (entries : gmap string string) :
  heap m !! d = Some (ODict entries) ->
  dict_get d key m = (Returns (entries !! key), m).
Proof. intros H. unfold dict_get, bind, deref. by rewrite H. Qed.

Lemma dict_setitem_value (d : loc) (key value : string) (m : Machine)
    (entries : gmap string string) :
  heap m !! d = Some (ODict entries) ->
  dict_setitem d key value m
  = (Returns tt,
     {| world := world m;
        heap := <[d := ODict (<[key := value]> entries)]> (heap m) |}).
Proof. intros H. unfold dict_setitem, bind, deref. by rewrite H. Qed.

(** The loop that fills [values] leaves in it what the fold of
    [metadata_step] gives, and touches no other object. *)
Lemma fill_values (values : loc) (parts : list string) (m : Machine)
    (entries : gmap string string) :
  heap m !! values = Some (ODict entries) ->
  for_in parts (fun part =>
    if negb (contains ":" part) then ret tt
    else
      match split_once ":" part with
      | Some (key, value) =>
          dict_setitem values (PVTParser._normalize_key key) (strip value)
      | None => ret tt
      end) m
  = (Returns tt,
     {| world := world m;
        heap := <[values :=
                    ODict (fold_left PVTParser.metadata_step parts entries)]>
                  (heap m) |}).
Proof.
  revert m entries. induction parts as [|part parts IH]; intros m entries H.
  - simpl. unfold ret. by rewrite insert_id, machine_eta.
  - cbn [for_in fold_left]. unfold PVTParser.metadata_step at 2.
    destruct (negb (contains ":" part)).
    + rewrite (bind_returns _ _ m m tt) by done. by apply IH.
    + destruct (split_once ":" part) as [[key value]|].
      * erewrite bind_returns by (by apply dict_setitem_value).
        rewrite (IH _ (<[PVTParser._normalize_key key := strip value]> entries))
          by apply lookup_insert_eq.
        simpl. by rewrite insert_insert_eq.
      * rewrite (bind_returns _ _ m m tt) by done. by apply IH.
Qed.

End StoreFacts.

Section MetadataCall.
Context {RT : PyRuntime}.
Import Str Store Py.

Lemma alloc_value (o : object) (m : Machine) :
  alloc o m
  = (Returns (fresh (dom (heap m))),
     {| world := world m;
        heap := <[fresh (dom (heap m)) := o]> (heap m) |}).
Proof. reflexivity. Qed.

(** The metadata object of a line holds what the pure method returns; the
    call creates it and the [values] dictionary and changes no object. *)
Lemma metadata_call (self : loc) (line file_path : string) (m : Machine) :
  exists metadata,
    PVTParser._parse_metadata_line line file_path = Returns metadata
    /\ Stateful._parse_metadata_line self line file_path m
       = let values := fresh (dom (heap m)) in
         let h :=
           <[values := ODict (PVTParser.metadata_values line)]> (heap m) in
         (Returns (fresh (dom h)),
          {| world := world m;
             heap := <[fresh (dom h) := OMetadata metadata]> h |}).
Proof.
  eexists. split; [apply parse_metadata_line_fields|].
  unfold Stateful._parse_metadata_line.
  rewrite (bind_returns _ _ _ _ _ (alloc_value _ m)).
  set (values := fresh (dom (heap m))).
  erewrite bind_returns by (apply fill_values; apply lookup_insert_eq).
  cbn [world heap]. rewrite insert_insert_eq.
  fold (PVTParser.metadata_parts line).
  change (fold_left PVTParser.metadata_step (PVTParser.metadata_parts line) ∅)
    with (PVTParser.metadata_values line).
  set (entries := PVTParser.metadata_values line).
  set (m2 := {| world := world m;
                heap := <[values := ODict entries]> (heap m) |}).
  assert (heap m2 !! values = Some (ODict entries)) as Hvalues
    by apply lookup_insert_eq.
  rewrite (bind_returns _ _ _ _ _ (dict_get_value _ "serienumber" _ _ Hvalues)).
  rewrite (bind_returns _ _ _ _ _ (dict_get_value _ "readingtime" _ _ Hvalues)).
  destruct (parse_datetime_value_returns (entries !! "readingtime"))
    as [reading_time Ert].
  rewrite (bind_lift _ _ _ _ Ert), Ert.
  rewrite (bind_returns _ _ _ _ _ (dict_get_value _ "measurepoint" _ _ Hvalues)).
  rewrite (bind_returns _ _ _ _ _
             (dict_get_value _ "installationdepthm" _ _ Hvalues)).
  assert ((match entries !! "installationdepthm" with
           | Some v =>
               if truthy v then ret (Some v)
               else dict_get values "installationdepth"
           | None => dict_get values "installationdepth"
           end) m2
          = (Returns (py_or (entries !! "installationdepthm") Some
                        (entries !! "installationdepth")), m2)) as Hdepth.
  { unfold py_or. destruct (entries !! "installationdepthm") as [v|];
      [destruct (truthy v); [done|]|]; by apply dict_get_value. }
  rewrite (bind_returns _ _ _ _ _ Hdepth).
  rewrite (bind_lift _ _ _ _ (coerce_float_optional _)).
  reflexivity.
Qed.

Lemma getattr_class_value (self : loc) (name class_value : string)
    (m : Machine) (attrs : gmap string string) :
  heap m !! self = Some (OParser attrs) -> attrs !! name = None ->
  getattr self name class_value m = (Returns class_value, m).
Proof.
  intros Hself Hname. unfold getattr, bind, deref.
  by rewrite Hself, Hname.
Qed.

Lemma find_header_call (self : loc) (idx : nat) (lines : list string)
    (m : Machine) :
  is_parser m self ->
  Stateful.find_header self idx lines m
  = (Returns (PVTParser.find_header idx lines), m).
Proof.
  intros (attrs & Hself & Hprefix). revert idx.
  induction lines as [|line lines IH]; intros idx; [done|].
  cbn [Stateful.find_header PVTParser.find_header].
  rewrite (bind_returns _ _ _ _ _
             (getattr_class_value _ _ _ _ _ Hself Hprefix)).
  destruct (startswith PVTParser._HEADER_PREFIX (lower (strip line)));
    [done|apply IH].
Qed.

End MetadataCall.

Section RowsCall.
Context {RT : PyRuntime}.
Import Str Store Py.

Lemma list_append_value (xs x : loc) (m : Machine) (items : list loc) :
  heap m !! xs = Some (OList items) ->
  list_append xs x m
  = (Returns tt,
     {| world := world m;
        heap := <[xs := OList (items ++ [x])]> (heap m) |}).
Proof. intros H. unfold list_append, bind, deref. by rewrite H. Qed.

(** An object that is there is not the one that [alloc] makes next. *)
Lemma fresh_ne (h : gmap loc object) (l : loc) (o : object) :
  h !! l = Some o -> l <> fresh (dom h).
Proof.
  intros Hl ->. pose proof (is_fresh (dom h)) as Hfresh.
  apply not_elem_of_dom in Hfresh. congruence.
Qed.

(** One turn of the row loop: nothing for a row that gives no reading,
    else a new reading object, appended to the list. *)
Lemma row_step_call (readings : loc) (line : string) (m : Machine) :
  Stateful.row_step readings line m
  = match row_readings line with
    | [] => (Returns tt, m)
    | reading :: _ =>
        (l <~ alloc (OReading reading) ;; list_append readings l) m
    end.
Proof.
  unfold Stateful.row_step, row_readings, PVTParser.row_step.
  destruct (negb (truthy (strip line))); [done|].
  destruct (split TAB line) as [|date_value [|time_value fields]];
    [done..|].
  destruct (parse_datetime_parts_returns date_value time_value) as [rt Ert].
  rewrite Ert. cbn [obind]. rewrite (bind_lift _ _ _ _ eq_refl).
  destruct rt as [timestamp|]; [|done].
  destruct (float_field_returns (date_value :: time_value :: fields) 2)
    as (pressure & Ep & _).
  destruct (float_field_returns (date_value :: time_value :: fields) 3)
    as (temperature & Et & _).
  destruct (float_field_returns (date_value :: time_value :: fields) 4)
    as (battery & Eb & _).
  rewrite Ep, Et, Eb. cbn [obind returned app].
  by rewrite !(bind_lift _ _ _ _ eq_refl).
Qed.

Lemma row_readings_none_or_one (line : string) :
  row_readings line = [] \/ exists reading, row_readings line = [reading].
Proof.
  destruct (row_readings_cases line) as [?|(reading & ? & _)];
    [by left|right; by exists reading].
Qed.

(** The row loop: the list object gets the new reading objects, in the
    order of the rows; every other object is as it was. *)
Lemma rows_call (readings : loc) (lines : list string) (m : Machine)
    (items : list loc) :
  heap m !! readings = Some (OList items) ->
  exists m' new,
    for_in lines (Stateful.row_step readings) m = (Returns tt, m')
    /\ world m' = world m
    /\ heap m' !! readings = Some (OList (items ++ new))
    /\ (forall l o, l <> readings -> heap m !! l = Some o ->
                    heap m' !! l = Some o)
    /\ Forall (fun l => heap m !! l = None) new
    /\ Forall2 (fun l reading => heap m' !! l = Some (OReading reading))
         new (concat (map row_readings lines)).
Proof.
  revert m items. induction lines as [|line lines IH]; intros m items Hlist.
  - exists m, []. rewrite app_nil_r. by repeat split.
  - cbn [for_in map concat].
    destruct (row_readings_none_or_one line) as [Hrow|[reading Hrow]].
    + destruct (IH m items Hlist) as (m' & new & E & ?).
      exists m', new. rewrite Hrow. split; [|done].
      rewrite (bind_returns _ _ m m tt); [done|].
      by rewrite row_step_call, Hrow.
    + set (l := fresh (dom (heap m))).
      assert (heap m !! l = None) as Hl by apply fresh_heap.
      assert (l <> readings) as Hne by (intros ->; congruence).
      set (m1 := {| world := world m;
                    heap := <[readings := OList (items ++ [l])]>
                              (<[l := OReading reading]> (heap m)) |}).
      assert (Stateful.row_step readings line m = (Returns tt, m1)) as Estep.
      { rewrite row_step_call, Hrow.
        rewrite (bind_returns _ _ _ _ _ (alloc_value _ m)).
        cbv beta. rewrite (list_append_value readings _ _ items); [done|].
        cbn [heap]. by rewrite lookup_insert_ne. }
      destruct (IH m1 (items ++ [l])) as (m' & new & E & Hw & Hr & Hframe
                                          & Hfresh & Hnew).
      { apply lookup_insert_eq. }
      exists m', (l :: new). rewrite Hrow.
      split; [by rewrite (bind_returns _ _ _ _ _ Estep)|].
      split; [done|].
      split; [by rewrite Hr, <- app_assoc|].
      split; [|split].
      * intros l' o Hl' Ho. apply Hframe; [done|]. unfold m1. cbn [heap].
        rewrite lookup_insert_ne by done.
        rewrite lookup_insert_ne; [done|]. intros <-. congruence.
      * constructor; [done|].
        eapply Forall_impl; [exact Hfresh|]. unfold m1. cbn [heap].
        intros l' Hnone.
        destruct (decide (l' = readings)) as [->|Hr'];
          [by rewrite lookup_insert_eq in Hnone|].
        rewrite lookup_insert_ne in Hnone by done.
        destruct (decide (l' = l)) as [->|Hl'];
          [by rewrite lookup_insert_eq in Hnone|].
        by rewrite lookup_insert_ne in Hnone.
      * cbn [app]. constructor; [|done].
        apply Hframe; [done|]. unfold m1. cbn [heap].
        rewrite lookup_insert_ne by done. apply lookup_insert_eq.
Qed.

End RowsCall.

Section Reify.
Import Store.

Lemma reify_reading_weaken (h h' : gmap loc object) (l : loc)
    (reading : PiezometerReading.t) :
  h ⊆ h' -> reify_reading h l = Some reading ->
  reify_reading h' l = Some reading.
Proof.
  intros Hsub. unfold reify_reading.
  destruct (h !! l) as [o|] eqn:E; [|done].
  by rewrite (lookup_weaken _ _ _ _ E Hsub).
Qed.

Lemma reify_parsed_intro (h : gmap loc object) (l metadata readings : loc)
    (fields : PiezometerMetadata.t) (items : list loc)
    (rows : list PiezometerReading.t) :
  h !! l = Some (OParsed metadata readings) ->
  h !! metadata = Some (OMetadata fields) ->
  h !! readings = Some (OList items) ->
  Forall2 (fun item row => h !! item = Some (OReading row)) items rows ->
  reify_parsed h l = Some {|
    ParsedPiezometer.metadata := fields;
    ParsedPiezometer.readings := rows
  |}
  /\ parsed_footprint h l = metadata :: readings :: items.
Proof.
  intros Hl Hmetadata Hreadings Hrows.
  unfold reify_parsed, parsed_footprint.
  rewrite Hl, Hmetadata, Hreadings. split; [|done].
  assert (mapM (reify_reading h) items = Some rows) as ->; [|done].
  apply mapM_Some. eapply Forall2_impl; [exact Hrows|].
  intros item row E. unfold reify_reading. by rewrite E.
Qed.

Lemma reify_parsed_weaken (h h' : gmap loc object) (l : loc)
    (parsed : ParsedPiezometer.t) :
  h ⊆ h' -> reify_parsed h l = Some parsed ->
  reify_parsed h' l = Some parsed
  /\ parsed_footprint h' l = parsed_footprint h l
  /\ Forall (fun x => is_Some (h !! x)) (l :: parsed_footprint h l).
Proof.
  intros Hsub. unfold reify_parsed, parsed_footprint.
  destruct (h !! l) as [[| | | | |metadata readings]|] eqn:El; try done.
  destruct (h !! metadata) as [[| | |fields| |]|] eqn:Em; try done.
  destruct (h !! readings) as [[items| | | | |]|] eqn:Er; try done.
  destruct (mapM (reify_reading h) items) as [rows|] eqn:Erows; [|done].
  simpl. intros [= <-].
  rewrite (lookup_weaken _ _ _ _ El Hsub), (lookup_weaken _ _ _ _ Em Hsub),
    (lookup_weaken _ _ _ _ Er Hsub).
  apply mapM_Some in Erows.
  assert (mapM (reify_reading h') items = Some rows) as ->.
  { apply mapM_Some. eapply Forall2_impl; [exact Erows|].
    intros item row. by apply reify_reading_weaken. }
  split; [done|]. split; [done|].
  repeat (constructor; [by eexists|]).
  apply Forall_forall. intros item Hin.
  apply list_elem_of_lookup in Hin as [i Hi].
  destruct (Forall2_lookup_l _ _ _ _ _ Erows Hi) as (row & _ & Hrow).
  unfold reify_reading in Hrow.
  destruct (h !! item); [by eexists|done].
Qed.


End Reify.

Section ParseCall.
Context {RT : PyRuntime}.
Import Str Store Py.

Lemma is_parser_weaken (m m' : Machine) (self : loc) :
  heap m ⊆ heap m' -> is_parser m self -> is_parser m' self.
Proof.
  intros Hsub (attrs & Hself & Hprefix). exists attrs.
  split; [by eapply lookup_weaken|done].
Qed.

Lemma alloc_subseteq (h : gmap loc object) (o : object) :
  h ⊆ <[fresh (dom h) := o]> h.
Proof. apply insert_subseteq, not_elem_of_dom, is_fresh. Qed.

Lemma fresh_new (h0 h : gmap loc object) :
  h0 ⊆ h -> h0 !! fresh (dom h) = None.
Proof.
  intros Hsub. eapply lookup_weaken_None; [|exact Hsub].
  apply not_elem_of_dom, is_fresh.
Qed.

(** One call of [_parse_text_file] on a readable file: it returns a new
    object that holds what the pure method gives, made of new objects, and
    leaves the file system and every object that was there as they were. *)
Lemma text_file_call (self : loc) (file_path text : string) (m : Machine) :
  is_parser m self ->
  files (world m) file_path = Returns text ->
  exists l m' parsed,
    Stateful._parse_text_file self file_path m = (Returns l, m')
    /\ world m' = world m
    /\ heap m ⊆ heap m'
    /\ PVTParser.parse_text text file_path = Returns parsed
    /\ reify_parsed (heap m') l = Some parsed
    /\ Forall (fun x => heap m !! x = None)
         (l :: parsed_footprint (heap m') l).
Proof.
  intros Hself Hfile.
  destruct (parse_text_returns text file_path) as (fields & Efields & Etext).
  unfold Stateful._parse_text_file.
  rewrite (bind_returns _ _ m m text) by (unfold read_text; by rewrite Hfile).
  fold (lines_of text).
  destruct (metadata_call self (PVTParser.find_meta_line (lines_of text))
              file_path m) as (fields' & Efields' & Emeta).
  rewrite Efields in Efields'. injection Efields' as <-.
  cbv zeta in Emeta. rewrite (bind_returns _ _ _ _ _ Emeta). clear Emeta.
  set (h1 := <[fresh (dom (heap m)) :=
                 ODict (PVTParser.metadata_values
                          (PVTParser.find_meta_line (lines_of text)))]>
               (heap m)).
  set (metadata := fresh (dom h1)).
  set (h2 := <[metadata := OMetadata fields]> h1).
  assert (heap m ⊆ h1) as Hsub1 by apply alloc_subseteq.
  assert (heap m ⊆ h2) as Hsub2
    by (etrans; [exact Hsub1|apply alloc_subseteq]).
  rewrite (bind_returns _ _ _ _ _
             (find_header_call self 0 (lines_of text) _
                (is_parser_weaken m {| world := world m; heap := h2 |}
                   self Hsub2 Hself))).
  rewrite (bind_returns _ _ _ _ _ (alloc_value _ _)). cbn [world heap].
  set (readings := fresh (dom h2)).
  set (h3 := <[readings := OList []]> h2).
  assert (heap m ⊆ h3) as Hsub3
    by (etrans; [exact Hsub2|apply alloc_subseteq]).
  assert (h3 !! metadata = Some (OMetadata fields)) as Hmetadata3.
  { eapply lookup_weaken; [apply lookup_insert_eq|apply alloc_subseteq]. }
  assert (exists m4 items,
            (match PVTParser.find_header 0 (lines_of text) with
             | Some header_index =>
                 for_in
                   (drop (PVTParser.data_start_after (lines_of text)
                            header_index) (lines_of text))
                   (Stateful.row_step readings)
             | None => ret tt
             end) {| world := world m; heap := h3 |} = (Returns tt, m4)
            /\ world m4 = world m
            /\ heap m4 !! readings = Some (OList items)
            /\ (forall l o, l <> readings -> h3 !! l = Some o ->
                            heap m4 !! l = Some o)
            /\ Forall (fun l => h3 !! l = None) items
            /\ Forall2 (fun l reading =>
                          heap m4 !! l = Some (OReading reading))
                 items (file_readings (lines_of text)))
    as (m4 & items & Erows & Hworld4 & Hreadings4 & Hframe & Hfresh & Hitems).
  { unfold file_readings.
    destruct (PVTParser.find_header 0 (lines_of text)) as [header_index|].
    - destruct (rows_call readings
                  (drop (PVTParser.data_start_after (lines_of text)
                           header_index) (lines_of text))
                  {| world := world m; heap := h3 |} [])
        as (m4 & items & ?); [apply lookup_insert_eq|].
      by exists m4, items.
    - exists {| world := world m; heap := h3 |}, [].
      split; [done|]. split; [done|].
      split; [apply lookup_insert_eq|]. by repeat split. }
  rewrite (bind_returns _ _ _ _ _ Erows). clear Erows.
  rewrite alloc_value.
  assert (heap m ⊆ heap m4) as Hsub4.
  { apply map_subseteq_spec. intros i o Hi. apply Hframe.
    - eapply fresh_ne, lookup_weaken; [exact Hi|exact Hsub2].
    - eapply lookup_weaken; [exact Hi|exact Hsub3]. }
  set (l := fresh (dom (heap m4))).
  assert (heap m4 ⊆ <[l := OParsed metadata readings]> (heap m4)) as Hsub5
    by apply alloc_subseteq.
  eexists l, _, _. split; [reflexivity|]. cbn [world heap].
  split; [done|]. split; [by etrans|]. split; [exact Etext|].
  destruct (reify_parsed_intro
              (<[l := OParsed metadata readings]> (heap m4))
              l metadata readings fields items
              (file_readings (lines_of text))) as [-> ->].
  - apply lookup_insert_eq.
  - eapply lookup_weaken; [|exact Hsub5]. apply Hframe; [|done].
    eapply fresh_ne, lookup_insert_eq.
  - eapply lookup_weaken; [exact Hreadings4|exact Hsub5].
  - eapply Forall2_impl; [exact Hitems|]. intros item row Hrow.
    eapply lookup_weaken; [exact Hrow|exact Hsub5].
  - split; [done|].
    constructor; [by apply fresh_new|].
    constructor; [by apply fresh_new|].
    constructor; [by apply fresh_new|].
    eapply Forall_impl; [exact Hfresh|]. intros item Hnone.
    eapply lookup_weaken_None; [exact Hnone|exact Hsub3].
Qed.

(** One call of [parse]. *)
Lemma parse_call (self : loc) (file_path : string) (m : Machine) :
  is_parser m self ->
  match files (world m) file_path with
  | Returns text =>
      exists l m' parsed,
        Stateful.parse self file_path m = (Returns l, m')
        /\ world m' = world m
        /\ heap m ⊆ heap m'
        /\ PVTParser.parse_text text file_path = Returns parsed
        /\ reify (heap m') l = Some [parsed]
        /\ Forall (fun x => heap m !! x = None) (footprint (heap m') l)
  | Raises e => Stateful.parse self file_path m = (Raises e, m)
  end.
Proof.
  intros Hself. unfold Stateful.parse.
  destruct (files (world m) file_path) as [text|e] eqn:Hfile.
  - destruct (text_file_call self file_path text m Hself Hfile)
      as (p & m1 & parsed & E & Hworld & Hsub & Etext & Hp & Hfresh).
    rewrite (bind_returns _ _ _ _ _ E), alloc_value.
    set (l := fresh (dom (heap m1))).
    assert (heap m1 ⊆ <[l := OList [p]]> (heap m1)) as Hsub'
      by apply alloc_subseteq.
    destruct (reify_parsed_weaken _ _ p parsed Hsub' Hp) as (Hp' & Hfoot & _).
    eexists l, _, parsed. split; [reflexivity|]. cbn [world heap].
    split; [done|]. split; [by etrans|]. split; [done|].
    unfold reify, footprint. rewrite lookup_insert_eq. split.
    + simpl. by rewrite Hp'.
    + constructor; [by apply fresh_new|].
      simpl. rewrite app_nil_r, Hfoot. exact Hfresh.
  - unfold bind, Stateful._parse_text_file, bind, read_text.
    by rewrite Hfile.
Qed.

End ParseCall.

Section Purity.
Context {RT : PyRuntime}.
Import Str Store Py.

(** What a call of [parse] shows its caller is what the pure method gives
    on the content of the file. *)
Lemma parse_observed (self : loc) (file_path : string) (m : Machine) :
  is_parser m self ->
  world (snd (Stateful.parse self file_path m)) = world m
  /\ heap m ⊆ heap (snd (Stateful.parse self file_path m))
  /\ observed (Stateful.parse self file_path m)
     = (results <- fst (PVTParser.parse file_path (world m)) ;;
        Returns (Some results)).
Proof.
  intros Hself. pose proof (parse_call self file_path m Hself) as Hcall.
  unfold PVTParser.parse, PVTParser._parse_text_file.
  destruct (files (world m) file_path) as [text|e].
  - destruct Hcall as (l & m' & parsed & -> & Hworld & Hsub & -> & Hl & _).
    simpl. by rewrite Hl.
  - by rewrite Hcall.
Qed.


(** X19.  The function [parse] of the module makes a parser of its own at every
    call: in any state of the store it gives what the pure method gives on
    the content of the file, and it changes no object that was there. *)
Theorem module_parse_needs_no_state (file_path : string) (m : Machine) :
  world (snd (Stateful.module_parse file_path m)) = world m
  /\ heap m ⊆ heap (snd (Stateful.module_parse file_path m))
  /\ observed (Stateful.module_parse file_path m)
     = (results <- fst (PVTParser.parse file_path (world m)) ;;
        Returns (Some results)).
Proof.
  unfold Stateful.module_parse.
  rewrite (bind_returns _ _ _ _ _ (alloc_value _ m)).
  set (self := fresh (dom (heap m))).
  set (m1 := {| world := world m; heap := <[self := OParser ∅]> (heap m) |}).
  assert (is_parser m1 self) as Hself.
  { exists ∅. split; [apply lookup_insert_eq|apply lookup_empty]. }
  destruct (parse_observed self file_path m1 Hself) as (Hworld & Hsub & Hobs).
  split; [done|]. split; [|done].
  etrans; [|exact Hsub]. apply alloc_subseteq.
Qed.

End Purity.

